(** * portablemc: the task installer, the Fabric init task and the download watcher

    A shallow embedding of [portablemc/task.py], [portablemc/fabric.py] and of
    the [DownloadWatcher] of [portablemc/cli/__init__.py], with the properties
    of the written specification stated against it. *)

From stdpp Require Import gmap strings list fin_maps.
From Stdlib Require Import ZArith Lia Sorted.

Open Scope string_scope.
Open Scope list_scope.
Set Warnings "-register-all".

(** ** The fragment of the Python runtime the code relies on *)

Module Py.

(** Exceptions that the embedded code can raise or let through. *)
Inductive exn :=
| TypeError
| KeyError
| IndexError
| AttributeError
| NotImplementedError
| Raised (name : string).

(** A call either raises or returns a value. *)
Definition result (A : Type) : Type := exn + A.
Definition Ok {A} (a : A) : result A := inr a.
Definition Err {A} (e : exn) : result A := inl e.

Definition raised {A} (r : result A) : option exn :=
  match r with
  | inl e => Some e
  | inr _ => None
  end.

Definition bind {A B} (m : result A) (k : A -> result B) : result B :=
  match m with
  | inl e => inl e
  | inr a => k a
  end.

(** Code that mutates objects of type [S] and may raise: the store after
    the call comes back in both cases. *)
Definition M (S A : Type) : Type := S -> S * result A.

Definition ret {S A} (a : A) : M S A := fun s => (s, Ok a).
Definition raise {S A} (e : exn) : M S A := fun s => (s, Err e).
Definition lift {S A} (r : result A) : M S A := fun s => (s, r).
Definition mbind {S A B} (m : M S A) (k : A -> M S B) : M S B :=
  fun s =>
    match m s with
    | (s', inl e) => (s', inl e)
    | (s', inr a) => k a s'
    end.

(** Classes are compared by identity; a class is known by its name. *)
Inductive pytype := Class (name : string).

Definition class_name (t : pytype) : string := let 'Class n := t in n.

#[global] Instance pytype_eq_dec : EqDecision pytype.
Proof. solve_decision. Defined.

#[global] Instance pytype_countable : Countable pytype :=
  inj_countable' class_name Class (fun t => match t with Class _ => eq_refl end).

(** [list.insert(index, x)] for an index that fits a [Py_ssize_t], from
    [- 2 ^ 63] to [2 ^ 63 - 1] (beyond them the call raises [OverflowError]
    and the list is left alone; no call of the sources comes near): a
    negative index counts from the end, and an index outside the list is
    clamped to its nearest end. *)
Definition list_insert {A} (index : Z) (x : A) (l : list A) : list A :=
  let n := Z.of_nat (length l) in
  let i := if (index <? 0)%Z then Z.max 0 (index + n) else Z.min index n in
  take (Z.to_nat i) l ++ x :: drop (Z.to_nat i) l.

(** [l[index] = x] on a list: a negative index counts from the end, an
    index outside the list raises [IndexError]. *)
Definition list_setitem {A} (index : Z) (x : A) (l : list A) : result (list A) :=
  let n := Z.of_nat (length l) in
  if ((0 <=? index) && (index <? n))%Z then Ok (<[Z.to_nat index := x]> l)
  else if ((- n <=? index) && (index <? 0))%Z then Ok (<[Z.to_nat (index + n) := x]> l)
  else Err IndexError.

(** What [json()] of an HTTP response can be. Objects keep their members
    in document order; a number is kept as its literal. *)
Inductive json :=
| JNull
| JBool (b : bool)
| JNum (literal : string)
| JStr (s : string)
| JList (items : list json)
| JObj (members : list (string * json)).

Fixpoint assoc {A} (k : string) (l : list (string * A)) : option A :=
  match l with
  | [] => None
  | (k', v) :: l' => if String.eqb k k' then Some v else assoc k l'
  end.

(** [j[0]] *)
Definition subscript0 (j : json) : result json :=
  match j with
  | JList (x :: _) => Ok x
  | JList [] => Err IndexError
  | JStr (String c _) => Ok (JStr (String c EmptyString))
  | JStr EmptyString => Err IndexError
  | JObj _ => Err KeyError
  | JNull | JBool _ | JNum _ => Err TypeError
  end.

(** [j.get(key, dflt)]: only a dict has the method. *)
Definition dict_get (j : json) (key : string) (dflt : json) : result json :=
  match j with
  | JObj members => Ok (default dflt (assoc key members))
  | _ => Err AttributeError
  end.

End Py.
Export Py.

Declare Scope py_scope.
Delimit Scope py_scope with py.
Notation "'let*' x ':=' m 'in' k" := (mbind m (fun x => k))
  (at level 10, x name, m at level 100, k at level 200) : py_scope.
Notation "'do' m 'in' k" := (mbind m (fun _ => k))
  (at level 10, m at level 100, k at level 200) : py_scope.

(** ** The instances that travel through the installer state

    [FabricApi], [FabricRoot] and [FabricRepository] are the classes of
    fabric.py; a field annotated [str] is a string. *)

Module classes.

Record FabricApi := mkFabricApi {
  api_name : string;
  api_url : string
}.

Record FabricRoot := mkFabricRoot {
  root_api : FabricApi;
  root_prefix : string;
  root_vanilla_version : string;
  root_loader_version : option string
}.

(** The loader version of a repository is whatever the resolution produced:
    the string of the root, or the JSON value the loader API answered. *)
Record FabricRepository := mkFabricRepository {
  repo_api : FabricApi;
  version_id : string;
  repo_vanilla_version : string;
  repo_loader_version : json
}.

(** Modelled from the spec: [MetadataRoot] of vanilla.py, which is not part
    of the sources; fabric.py constructs it from the version identifier,
    the "concrete metadata document" identifier that the generic fetch step
    reads back. *)
Record MetadataRoot := mkMetadataRoot {
  metadata_root_id : string
}.

(** Modelled from the spec: [VersionRepositories] of vanilla.py, which is
    not part of the sources; fabric.py only calls its [insert(version_id,
    repository)], the registration of the "repository/override object" for
    an identifier. The instance is represented by the registrations it has
    received, latest first. *)
Record VersionRepositories := mkVersionRepositories {
  registrations : list (string * FabricRepository)
}.

Definition VersionRepositories_insert (id : string) (repo : FabricRepository)
    (r : VersionRepositories) : VersionRepositories :=
  {| registrations := (id, repo) :: registrations r |}.

(** Every object a [State] can hold: [None], the instances above, or an
    instance of some other class, known by its class and its identity. *)
Inductive value :=
| VNone
| VFabricRoot (r : FabricRoot)
| VMetadataRoot (r : MetadataRoot)
| VVersionRepositories (r : VersionRepositories)
| VInstance (cls : string) (ident : Z).

(** The values handed to [Watcher.on_event]: the event class of fabric.py,
    or an instance of some other event class. *)
Inductive event :=
| FabricResolveEvent (api : FabricApi) (vanilla_version : string) (loader_version : json)
| AnyEvent (cls : string) (ident : Z).

Definition cls_FabricRoot : pytype := Class "FabricRoot".
Definition cls_MetadataRoot : pytype := Class "MetadataRoot".
Definition cls_VersionRepositories : pytype := Class "VersionRepositories".

(** [type(value)] *)
Definition py_type (v : value) : pytype :=
  match v with
  | VNone => Class "NoneType"
  | VFabricRoot _ => cls_FabricRoot
  | VMetadataRoot _ => cls_MetadataRoot
  | VVersionRepositories _ => cls_VersionRepositories
  | VInstance cls _ => Class cls
  end.

End classes.
Export classes.

(** ** task.py *)

Module task.

(** [class State]: a dictionary from a type to its instance. *)
Record State := mkState {
  data : gmap pytype value
}.

Definition State_init : State := {| data := ∅ |}.

Definition State_clear (s : State) : State := {| data := ∅ |}.

(** [self.data.get(ty)]: [None] when the key is missing. *)
Definition State_get (s : State) (ty : pytype) : result value :=
  Ok (default VNone (data s !! ty)).

(** A class as [get] receives it, a key that the dictionary hashes before
    it looks it up: the class, and what [hash] of it gives. A class is
    hashed by its metaclass: [type], for a class statement that names none,
    gives a number; a metaclass that sets [__hash__] to [None] makes
    [hash] raise [TypeError], one that defines the method can raise what it
    likes. Classes are equal when they are the same class. *)
Record type_object := mkTypeObject {
  type_class : pytype;
  type_hash : result Z
}.

(** [state.get(ty)] with any class for [ty]: [dict.get] takes the hash of
    the key, and goes on to the lookup when it has one. *)
Definition State_get_key (s : State) (ty : type_object) : result value :=
  match type_hash ty with
  | inl e => Err e
  | inr _ => State_get s (type_class ty)
  end.

(** [self.data[type(value)] = value] *)
Definition State_insert (v : value) (s : State) : State :=
  {| data := <[py_type v := v]> (data s) |}.

Definition State_contains (s : State) (ty : pytype) : bool :=
  bool_decide (is_Some (data s !! ty)).

(** [self.data[ty]]: [KeyError] when the key is missing. *)
Definition State_getitem (s : State) (ty : pytype) : result value :=
  match data s !! ty with
  | Some v => Ok v
  | None => Err KeyError
  end.

(** An object held by the state is mutated in place: the state holds the
    object as it is after the call. *)
Definition State_mutated (ty : pytype) (v : value) (s : State) : State :=
  {| data := <[ty := v]> (data s) |}.

(** The instances of class [ty] that the store holds. *)
Definition State_instances (s : State) (ty : pytype) : list value :=
  filter (fun v => py_type v = ty) (snd <$> map_to_list (data s)).

(** A state in which every instance sits under its own type, as [insert]
    leaves it. *)
Definition State_typed (s : State) : Prop :=
  forall ty v, data s !! ty = Some v -> py_type v = ty.


Section Installer.

(** The state of a watcher object, whatever its class keeps. *)
Context {W : Type}.

(** [on_event] as a class defines it: the base class takes no event, a
    subclass such as the watchers of the command line takes one. *)
Inductive on_event_method :=
| OnEvent0 (body : W -> W * result unit)
| OnEvent1 (body : event -> W -> W * result unit).

(** A watcher object: its identity (what the set of watchers hashes), the
    [on_event] of its class, its attributes. [on_task_begin] and
    [on_task_end] are the hooks of the base class in every class of the
    sources: they do nothing. *)
Record Watcher := mkWatcher {
  watcher_id : positive;
  on_event : on_event_method;
  watcher_state : W
}.

(** [class Watcher]: [def on_event(self) -> None], an empty body. *)
Definition Watcher_on_event : on_event_method := OnEvent0 (fun w => (w, Ok tt)).

(** [watcher.on_event(event)], a call with one argument. *)
Definition call_on_event (ev : event) : M Watcher unit :=
  fun w =>
    match on_event w with
    | OnEvent0 _ => (w, Err TypeError)
    | OnEvent1 body =>
        let '(st, r) := body ev (watcher_state w) in
        ({| watcher_id := watcher_id w; on_event := on_event w; watcher_state := st |}, r)
    end.

(** [execute] as a class defines it: [def execute(self, state)] as in
    task.py, or [def execute(self, state, watcher)] as in fabric.py. *)
Inductive execute_method :=
| Execute1 (body : M State unit)
| Execute2 (body : M (State * Watcher) unit).

Record Task := mkTask {
  task_id : nat;
  task_type : pytype;
  setup : M State unit;
  execute : execute_method
}.

(** [class Task]: an empty [setup], an [execute] that raises. *)
Definition Task_setup : M State unit := ret tt.
Definition Task_execute : execute_method := Execute1 (raise NotImplementedError).

(** [task.execute(state)], a call with one argument. *)
Definition call_execute (t : Task) : M State unit :=
  match execute t with
  | Execute1 body => body
  | Execute2 _ => raise TypeError
  end.

Record Installer := mkInstaller {
  _tasks : list Task;
  _state : State;
  _watchers : gset positive
}.

Definition Installer_init : Installer :=
  {| _tasks := []; _state := State_init; _watchers := ∅ |}.

Definition with_tasks (l : list Task) (self : Installer) : Installer :=
  {| _tasks := l; _state := _state self; _watchers := _watchers self |}.

Definition with_state (s : State) (self : Installer) : Installer :=
  {| _tasks := _tasks self; _state := s; _watchers := _watchers self |}.

(** Run a method of the state object held by the installer. *)
Definition on_state {A} (m : M State A) : M Installer A :=
  fun self => let '(s, r) := m (_state self) in (with_state s self, r).

Definition Installer_insert_task (task : Task) (index : Z) : M Installer unit :=
  fun self => on_state (setup task) (with_tasks (list_insert index task (_tasks self)) self).

(** The [for i, task in enumerate(self._tasks)] of [append_task]. The
    iterator reads the list afresh at every index, so it sees what the body
    inserts; the loop variable is the parameter [task] itself, which comes
    back as the loop left it. [None] when the fuel runs out. *)
Fixpoint append_task_loop (fuel : nat) (after : pytype) (i : nat) (task : Task)
    (self : Installer) : option (Installer * result Task) :=
  match fuel with
  | O => None
  | S fuel' =>
      match _tasks self !! i with
      | None => Some (self, Ok task)
      | Some task =>
          if decide (task_type task = after) then
            match Installer_insert_task task (Z.of_nat i + 1) self with
            | (self', inl e) => Some (self', Err e)
            | (self', inr _) => append_task_loop fuel' after (S i) task self'
            end
          else append_task_loop fuel' after (S i) task self
      end
  end.

Definition Installer_append_task (fuel : nat) (task : Task) (after : option pytype)
    (self : Installer) : option (Installer * result unit) :=
  match after with
  | None => Some (Installer_insert_task task (Z.of_nat (length (_tasks self))) self)
  | Some after =>
      match append_task_loop fuel after 0 task self with
      | None => None
      | Some (self', inl e) => Some (self', Err e)
      | Some (self', inr task) =>
          Some (Installer_insert_task task (Z.of_nat (length (_tasks self'))) self')
      end
  end.

(** The same loop in [prepend_task], which inserts at [i]. *)
Fixpoint prepend_task_loop (fuel : nat) (before : pytype) (i : nat) (task : Task)
    (self : Installer) : option (Installer * result Task) :=
  match fuel with
  | O => None
  | S fuel' =>
      match _tasks self !! i with
      | None => Some (self, Ok task)
      | Some task =>
          if decide (task_type task = before) then
            match Installer_insert_task task (Z.of_nat i) self with
            | (self', inl e) => Some (self', Err e)
            | (self', inr _) => prepend_task_loop fuel' before (S i) task self'
            end
          else prepend_task_loop fuel' before (S i) task self
      end
  end.

Definition Installer_prepend_task (fuel : nat) (task : Task) (before : option pytype)
    (self : Installer) : option (Installer * result unit) :=
  match before with
  | None => Some (Installer_insert_task task 0 self)
  | Some before =>
      match prepend_task_loop fuel before 0 task self with
      | None => None
      | Some (self', inl e) => Some (self', Err e)
      | Some (self', inr task) => Some (Installer_insert_task task 0 self')
      end
  end.

(** [self._watchers.add(watcher)]: the set by its members. The table that
    CPython keeps for the set, and with it the order in which the set is
    iterated, is the matter of [setobject] below. *)
Definition Installer_add_watcher (watcher : Watcher) (self : Installer) : Installer :=
  {| _tasks := _tasks self; _state := _state self;
     _watchers := {[watcher_id watcher]} ∪ _watchers self |}.

(** [self._watchers.remove(watcher)]: [KeyError] when it is not a member. *)
Definition Installer_remove_watcher (watcher : Watcher) : M Installer unit :=
  fun self =>
    if decide (watcher_id watcher ∈ _watchers self) then
      ({| _tasks := _tasks self; _state := _state self;
          _watchers := _watchers self ∖ {[watcher_id watcher]} |}, Ok tt)
    else (self, Err KeyError).

Fixpoint setup_all (tasks : list Task) : M State unit :=
  match tasks with
  | [] => ret tt
  | task :: rest => (let* _ := setup task in setup_all rest)%py
  end.

Definition Installer_reset : M Installer unit :=
  fun self => on_state (fun state => setup_all (_tasks self) (State_clear state)) self.

(** What an observer of a run sees, in order: the hook calls on the
    watchers and the calls of [execute]. *)
Inductive call :=
| on_task_begin (watcher : positive) (task : Task)
| execute_call (task : Task)
| on_task_end (watcher : positive) (task : Task).

(** The [for task in self._tasks] of [install]; both inner loops iterate
    the set of watchers, taken here in the enumeration [elements] of its
    members (for the order that the table of the set gives, see
    [install_loop_in] below). The calls made so far are kept next to the
    state, so that they survive an exception. *)
Fixpoint install_loop (watchers : gset positive) (tasks : list Task)
    : M (State * list call) unit :=
  fun '(state, log) =>
    match tasks with
    | [] => ((state, log), Ok tt)
    | task :: rest =>
        let log := log ++ ((fun w => on_task_begin w task) <$> elements watchers) in
        let log := log ++ [execute_call task] in
        match call_execute task state with
        | (state, inl e) => ((state, log), Err e)
        | (state, inr _) =>
            let log := log ++ ((fun w => on_task_end w task) <$> elements watchers) in
            install_loop watchers rest (state, log)
        end
    end.

(** [install]: the installer after the run, the calls of the run, and how
    the run ended. *)
Definition Installer_install (self : Installer) : (Installer * list call) * result unit :=
  let '((state, log), r) := install_loop (_watchers self) (_tasks self) (_state self, []) in
  ((with_state state self, log), r).

End Installer.

End task.
Export task.

(** ** fabric.py *)

Module fabric.

Definition FABRIC_API : FabricApi := mkFabricApi "fabric" "https://meta.fabricmc.net/v2/".
Definition QUILT_API : FabricApi := mkFabricApi "quilt" "https://meta.quiltmc.org/v3/".

Definition with_fabric (prefix vanilla_version : string) (loader_version : option string)
    : FabricRoot :=
  mkFabricRoot FABRIC_API prefix vanilla_version loader_version.

Definition with_quilt (prefix vanilla_version : string) (loader_version : option string)
    : FabricRoot :=
  mkFabricRoot QUILT_API prefix vanilla_version loader_version.

Definition cls_FabricInitTask : pytype := Class "FabricInitTask".
Definition cls_MetadataTask : pytype := Class "MetadataTask".

Section Fabric.

Context {W : Type}.

(** [http_request("GET", url, accept="application/json").json()] of the
    http module, which is not part of the sources: what the server answers
    for a URL, or the exception of the request. *)
Variable http_request_json : string -> result json.

(** [str()] of a JSON value that is neither a string, [None] nor a bool. *)
Variable py_str : json -> string.

Definition request_fabric_meta (self : FabricApi) (method : string) : result json :=
  http_request_json (api_url self +:+ method).

Definition request_fabric_loader_version (self : FabricApi) (vanilla_version : string)
    : result json :=
  bind (request_fabric_meta self ("versions/loader/" +:+ vanilla_version)) (fun versions =>
  bind (subscript0 versions) (fun first =>
  bind (dict_get first "loader" (JObj [])) (fun loader =>
  dict_get loader "version" JNull))).

Definition request_version_loader_profile (self : FabricApi)
    (vanilla_version loader_version : string) : result json :=
  request_fabric_meta self
    ("versions/loader/" +:+ vanilla_version +:+ "/" +:+ loader_version +:+ "/profile/json").

(** A value in a replacement field of an f-string. *)
Definition format (j : json) : string :=
  match j with
  | JStr s => s
  | JNull => "None"
  | JBool true => "True"
  | JBool false => "False"
  | _ => py_str j
  end.

(** A call on the state, a call on the watcher. *)
Definition in_state {A} (m : M State A) : M (State * @Watcher W) A :=
  fun '(state, watcher) => let '(state', r) := m state in ((state', watcher), r).

Definition in_watcher {A} (m : M (@Watcher W) A) : M (State * @Watcher W) A :=
  fun '(state, watcher) => let '(watcher', r) := m watcher in ((state, watcher'), r).

(** [FabricInitTask.execute(self, state, watcher)] *)
Definition FabricInitTask_execute : M (State * @Watcher W) unit :=
  (let* root := in_state (fun state => (state, State_get state cls_FabricRoot)) in
   match root with
   | VNone => ret tt
   | VFabricRoot root =>
       let vanilla_version := root_vanilla_version root in
       let* loader_version :=
         match root_loader_version root with
         | None =>
             do in_watcher (call_on_event
                  (FabricResolveEvent (root_api root) vanilla_version JNull)) in
             lift (request_fabric_loader_version (root_api root) vanilla_version)
         | Some loader_version => ret (JStr loader_version)
         end in
       do in_watcher (call_on_event
            (FabricResolveEvent (root_api root) vanilla_version loader_version)) in
       let version_id :=
         root_prefix root +:+ "-" +:+ vanilla_version +:+ "-" +:+ format loader_version in
       do in_state (fun state =>
            (State_insert (VMetadataRoot (mkMetadataRoot version_id)) state, Ok tt)) in
       let* repositories :=
         in_state (fun state => (state, State_getitem state cls_VersionRepositories)) in
       match repositories with
       | VVersionRepositories repositories =>
           let repository :=
             mkFabricRepository (root_api root) version_id vanilla_version loader_version in
           in_state (fun state =>
             (State_mutated cls_VersionRepositories
                (VVersionRepositories
                   (VersionRepositories_insert version_id repository repositories))
                state, Ok tt))
       | _ => raise AttributeError
       end
   | _ => raise AttributeError
   end)%py.

(** [FabricInitTask()]: the class has [execute] only, [setup] is the one
    of [Task]. *)
Definition FabricInitTask (id : nat) : @Task W :=
  {| task_id := id; task_type := cls_FabricInitTask;
     setup := Task_setup; execute := Execute2 FabricInitTask_execute |}.

(** [seq.prepend_task(FabricInitTask(), before=MetadataTask)]. fabric.py
    imports the class of [seq] from task.py under the name [Sequence], a
    name that task.py does not define; [seq] is taken here to be an
    [Installer], the one class of task.py with a [prepend_task]. *)
Definition add_fabric_tasks (fuel : nat) (id : nat) (seq : @Installer W)
    : option (Installer * result unit) :=
  Installer_prepend_task fuel (FabricInitTask id) (Some cls_MetadataTask) seq.

End Fabric.

End fabric.
Export fabric.

(** ** cli/__init__.py: the download watcher *)

Module cli.

Section DownloadWatcher.

(** Python numbers, with [+] on them; [num_of_Z] is an [int], [float_zero]
    is the literal [0.0]. Nothing is assumed of the arithmetic of floats. *)
Variable num : Type.
Variable num_add : num -> num -> num.
Variable num_of_Z : Z -> num.
Variable float_zero : num.

(** [format_number] of cli/util.py, which is not part of the sources. *)
Variable format_number : num -> string.

(** The events of download.py, which is not part of the sources, with the
    attributes the watcher reads. *)
Record DownloadStartEvent := mkDownloadStartEvent {
  start_entries_count : Z;
  start_size : Z;
  threads_count : Z
}.

Record DownloadProgressEvent := mkDownloadProgressEvent {
  thread_id : Z;
  progress_size : Z;
  count : Z;
  speed : num
}.

Inductive download_event :=
| Start (e : DownloadStartEvent)
| Progress (e : DownloadProgressEvent)
| Complete
| Other.

(** Calls on the [Output] of cli/output.py, which is not part of the
    sources. *)
Inductive kwarg :=
| KStr (s : string)
| KInt (n : Z).

Inductive output_call :=
| out_task (state : string) (key : option string) (kwargs : list (string * kwarg))
| out_finish.

(** The four attributes are annotated in [__init__] and assigned together
    by the first start event; before it, reading one raises
    [AttributeError]. *)
Record attributes := mkAttributes {
  entries_count : Z;
  total_size : Z;
  size : Z;
  speeds : list num
}.

Record DownloadWatcher := mkDownloadWatcher {
  out : list output_call;
  attrs : option attributes
}.

Definition DownloadWatcher_init : DownloadWatcher :=
  {| out := []; attrs := None |}.

(** [sum(xs)]: the additions start from the [int] zero, left to right. *)
Definition sum (xs : list num) : num := fold_left num_add xs (num_of_Z 0).

Definition DownloadWatcher_on_event (event : download_event) : M DownloadWatcher unit :=
  fun self =>
    match event with
    | Start e =>
        ({| out := out self ++ [out_task ".." (Some "download.start") []];
            attrs := Some {| entries_count := start_entries_count e;
                             total_size := start_size e;
                             size := 0;
                             speeds := replicate (Z.to_nat (threads_count e)) float_zero |} |},
         Ok tt)
    | Progress e =>
        match attrs self with
        | None => (self, Err AttributeError)
        | Some a =>
            match list_setitem (thread_id e) (speed e) (speeds a) with
            | inl exc => (self, Err exc)
            | inr speeds' =>
                let speed := sum speeds' in
                let size' := (size a + progress_size e)%Z in
                ({| out := out self ++
                      [out_task ".." (Some "download.progress")
                         [("speed", KStr (format_number speed +:+ "o/s"));
                          ("count", KInt (count e));
                          ("total_count", KInt (entries_count a));
                          ("size", KStr (format_number (num_of_Z size') +:+ "o"))]];
                    attrs := Some {| entries_count := entries_count a;
                                     total_size := total_size a;
                                     size := size';
                                     speeds := speeds' |} |},
                 Ok tt)
            end
        end
    | Complete =>
        ({| out := out self ++ [out_task "OK" None []; out_finish]; attrs := attrs self |}, Ok tt)
    | Other => (self, Ok tt)
    end.

(** The watcher receives the events of a download one after the other. *)
Fixpoint on_events (events : list download_event) : M DownloadWatcher unit :=
  match events with
  | [] => ret tt
  | event :: rest => (do DownloadWatcher_on_event event in on_events rest)%py
  end.

(** The speed that worker [i] reported last among [events], [0.0] when it
    has not reported yet. *)
Definition latest_speed (events : list DownloadProgressEvent) (i : Z) : num :=
  default float_zero (last (speed <$> filter (fun e => thread_id e = i) events)).

(** The bytes that the workers reported among [events], all together. *)
Definition received (events : list DownloadProgressEvent) : Z :=
  foldl Z.add 0%Z (progress_size <$> events).

(** The identifiers of the workers that a start event announces. *)
Definition workers (e : DownloadStartEvent) : list Z :=
  Z.of_nat <$> seq 0 (Z.to_nat (threads_count e)).

(** What the watcher prints for a progress event. *)
Definition progress_report (speed : num) (count total_count size : Z) : output_call :=
  out_task ".." (Some "download.progress")
    [("speed", KStr (format_number speed +:+ "o/s"));
     ("count", KInt count);
     ("total_count", KInt total_count);
     ("size", KStr (format_number (num_of_Z size) +:+ "o"))].

End DownloadWatcher.

Arguments thread_id {num}.
Arguments progress_size {num}.
Arguments count {num}.
Arguments speed {num}.
Arguments Start {num}.
Arguments Progress {num}.
Arguments Complete {num}.
Arguments Other {num}.
Arguments entries_count {num}.
Arguments total_size {num}.
Arguments size {num}.
Arguments speeds {num}.
Arguments out {num}.
Arguments attrs {num}.

End cli.

(** ** Vocabulary of the statements *)

Module statements.

Section Runs.

Context {W : Type}.

(** The calls around a task whose [execute] returns, and around one whose
    [execute] raises, when the watchers are visited in [order]. *)
Definition completed_calls (order : list positive) (task : @Task W) : list call :=
  ((fun w => on_task_begin w task) <$> order) ++
  execute_call task :: ((fun w => on_task_end w task) <$> order).

Definition aborted_calls (order : list positive) (task : @Task W) : list call :=
  ((fun w => on_task_begin w task) <$> order) ++ [execute_call task].

(** The tasks whose [execute] was called, in the order of the calls. *)
Definition executed (log : list (@call W)) : list Task :=
  omap (fun c => match c with execute_call task => Some task | _ => None end) log.

(** Every [execute] of [tasks] returns when they run one after the other
    from [state], and leaves [state']. *)
Inductive completes : list (@Task W) -> State -> State -> Prop :=
| completes_nil state : completes [] state state
| completes_cons task tasks state state' state'' :
    call_execute task state = (state', Ok tt) ->
    completes tasks state' state'' ->
    completes (task :: tasks) state state''.

(** The same on the methods themselves: every task of [tasks] has the
    [execute(self, state)] of task.py, and the bodies, run one after the
    other from [state], return and leave [state']. *)
Inductive bodies_return : list (@Task W) -> State -> State -> Prop :=
| bodies_return_nil state : bodies_return [] state state
| bodies_return_cons task body tasks state state' state'' :
    execute task = Execute1 body ->
    body state = (state', Ok tt) ->
    bodies_return tasks state' state'' ->
    bodies_return (task :: tasks) state state''.

(** [task.execute(state)] raises [e] and leaves [state']: the body of an
    [execute(self, state)] does, or the method takes a second argument
    and the call is a [TypeError] that leaves the state as it is. *)
Definition body_raises (task : @Task W) (state state' : State) (e : exn) : Prop :=
  match execute task with
  | Execute1 body => body state = (state', Err e)
  | Execute2 _ => state' = state /\ e = TypeError
  end.

(** A [setup] that returns, whatever the state. *)
Definition setup_returns (task : @Task W) : Prop :=
  forall state, exists state', setup task state = (state', Ok tt).

(** A watcher whose [on_event] takes the event and returns. *)
Definition accepts_events (watcher : @Watcher W) : Prop :=
  exists body, on_event watcher = OnEvent1 body /\
               forall ev st, snd (body ev st) = Ok tt.

(** The watcher after [on_event(ev)]. *)
Definition notify (watcher : @Watcher W) (ev : event) : Watcher :=
  fst (call_on_event ev watcher).

(** The loader version that [FabricInitTask.execute] goes on with: the one
    of the root, or else the answer of the loader API. *)
Definition resolved (http_request_json : string -> result json) (root : FabricRoot)
    : result json :=
  match root_loader_version root with
  | Some loader_version => Ok (JStr loader_version)
  | None =>
      request_fabric_loader_version http_request_json
        (root_api root) (root_vanilla_version root)
  end.

(** The identifier that [execute] builds, and the state when it reaches
    the registration. *)
Definition synthesized_id (py_str : json -> string) (root : FabricRoot)
    (loader_version : json) : string :=
  root_prefix root +:+ "-" +:+ root_vanilla_version root +:+ "-" +:+
  format py_str loader_version.

Definition with_metadata_root (py_str : json -> string) (root : FabricRoot)
    (loader_version : json) (state : State) : State :=
  State_insert
    (VMetadataRoot (mkMetadataRoot (synthesized_id py_str root loader_version))) state.

(** The events of a resolution that ends with [loader_version]. *)
Definition resolve_events (root : FabricRoot) (loader_version : json) : list event :=
  match root_loader_version root with
  | Some _ => []
  | None => [FabricResolveEvent (root_api root) (root_vanilla_version root) JNull]
  end ++ [FabricResolveEvent (root_api root) (root_vanilla_version root) loader_version].

End Runs.

(** A task of class [cls] that inherits [setup] and [execute] from [Task],
    and one whose [execute] does nothing. *)
Definition plain_task {W} (id : nat) (cls : string) : @Task W :=
  {| task_id := id; task_type := Class cls; setup := Task_setup; execute := Task_execute |}.

Definition idle_task {W} (id : nat) (cls : string) : @Task W :=
  {| task_id := id; task_type := Class cls; setup := Task_setup;
     execute := Execute1 (ret tt) |}.

(** A task whose [execute] inserts [v] in the state, and one whose
    [execute] inserts [v] and then raises. *)
Definition inserting_task {W} (id : nat) (cls : string) (v : value) : @Task W :=
  {| task_id := id; task_type := Class cls; setup := Task_setup;
     execute := Execute1 (fun state => (State_insert v state, Ok tt)) |}.

Definition failing_task {W} (id : nat) (cls : string) (v : value) (e : exn) : @Task W :=
  {| task_id := id; task_type := Class cls; setup := Task_setup;
     execute := Execute1 (fun state => (State_insert v state, Err e)) |}.

(** An instance of the base class [Watcher]. *)
Definition base_watcher (id : positive) : @Watcher unit :=
  {| watcher_id := id; on_event := Watcher_on_event; watcher_state := tt |}.

(** A watcher whose [on_event] keeps the events it receives. *)
Definition recorder (id : positive) (seen : list event) : @Watcher (list event) :=
  {| watcher_id := id;
     on_event := OnEvent1 (fun ev seen => (seen ++ [ev], Ok tt));
     watcher_state := seen |}.

End statements.
Export statements.

(** One step of the code in the monad, the calls themselves left as they
    are. *)
Ltac run :=
  cbn -[call_on_event State_insert State_getitem State_mutated format
        String.append request_fabric_loader_version notify].

(** ** fabric.py: the repository of a Fabric version *)

Module fabric_repository.

(** Modelled from the spec: the [Version] of vanilla.py, which is not part
    of the sources, the "versioned directory per installable unit" with its
    metadata document: the identifier and the metadata that fabric.py reads
    and assigns, and the documents that [write_metadata_file()] has written,
    latest last. *)
Record Version := mkVersion {
  Version_id : string;
  metadata : json;
  written : list json
}.

(** [d[key] = v] on a dict: the value of a key it has is replaced in place,
    a new key comes last. *)
Fixpoint assoc_set {A} (key : string) (v : A) (l : list (string * A))
    : list (string * A) :=
  match l with
  | [] => [(key, v)]
  | (k, u) :: l' => if String.eqb key k then (k, v) :: l' else (k, u) :: assoc_set key v l'
  end.

(** [j[key] = v] with a string key: only a dict takes it. *)
Definition setitem (j : json) (key : string) (v : json) : result json :=
  match j with
  | JObj members => Ok (JObj (assoc_set key v members))
  | _ => Err TypeError
  end.

Section FabricRepository.

Variable http_request_json : string -> result json.
Variable py_str : json -> string.

(** [assert version.id == self.version_id; return True] *)
Definition validate_version_meta (self : FabricRepository) (version : Version)
    : result bool :=
  if String.eqb (Version_id version) (version_id self) then Ok true
  else Err (Raised "AssertionError").

(** [fetch_version_meta]: the three statements, each on the version as the
    one before left it. *)
Definition fetch_version_meta (self : FabricRepository) : M Version unit :=
  fun version =>
    match request_version_loader_profile http_request_json (repo_api self)
            (repo_vanilla_version self) (format py_str (repo_loader_version self)) with
    | inl e => (version, Err e)
    | inr profile =>
        let version :=
          {| Version_id := Version_id version; metadata := profile;
             written := written version |} in
        match setitem (metadata version) "id" (JStr (version_id self)) with
        | inl e => (version, Err e)
        | inr document =>
            ({| Version_id := Version_id version; metadata := document;
                written := written version ++ [document] |}, Ok tt)
        end
    end.

(** The URL that [fetch_version_meta] asks for. *)
Definition profile_url (self : FabricRepository) : string :=
  api_url (repo_api self) +:+ "versions/loader/" +:+ repo_vanilla_version self +:+
  "/" +:+ format py_str (repo_loader_version self) +:+ "/profile/json".

End FabricRepository.

End fabric_repository.
Export fabric_repository.

(** ** cli/__init__.py: the start watcher *)

Module cli_start.

Import cli.

(** The events of vanilla.py, which is not part of the sources, with the
    attributes the watcher reads: a count or a version that can be [None]
    is an option. [OtherEvent] is an instance of any other class. *)
Inductive start_event :=
| VersionResolveEvent (version_id : string) (done : bool)
| JarFoundEvent (version_id : string)
| AssetsResolveEvent (index_version : string) (count : option Z)
| LibraryResolveEvent (count : option Z)
| LoggerFoundEvent (version : string)
| JvmResolveEvent (version : option string) (count : option Z)
| OtherEvent.

Section StartWatcher.

(** [_], the [get] of cli/lang.py, which is not part of the sources. *)
Variable translate : string -> string.

(** [version or _("start.jvm.unknown_version")]: [None] and the empty
    string are false. *)
Definition version_or_unknown (version : option string) : string :=
  match version with
  | Some (String c s) => String c s
  | Some EmptyString | None => translate "start.jvm.unknown_version"
  end.

(** [StartWatcher.on_event]; the watcher has the [Output] it prints on
    and nothing else. *)
Definition StartWatcher_on_event (event : start_event) : M (list output_call) unit :=
  fun out =>
    match event with
    | VersionResolveEvent version_id done =>
        if done then
          (out ++ [out_task "OK" (Some "start.version.resolved") [("version", KStr version_id)];
                   out_finish], Ok tt)
        else
          (out ++ [out_task ".." (Some "start.version.resolving")
                     [("version", KStr version_id)]], Ok tt)
    | JarFoundEvent version_id =>
        (out ++ [out_task "OK" (Some "start.jar.found") [("version", KStr version_id)];
                 out_finish], Ok tt)
    | AssetsResolveEvent index_version count =>
        match count with
        | None =>
            (out ++ [out_task ".." (Some "start.assets.resolving")
                       [("index_version", KStr index_version)]], Ok tt)
        | Some count =>
            (out ++ [out_task "OK" (Some "start.assets.resolved")
                       [("index_version", KStr index_version); ("count", KInt count)];
                     out_finish], Ok tt)
        end
    | LibraryResolveEvent count =>
        match count with
        | None => (out ++ [out_task ".." (Some "start.libraries.resolving") []], Ok tt)
        | Some count =>
            (out ++ [out_task "OK" (Some "start.libraries.resolved") [("count", KInt count)];
                     out_finish], Ok tt)
        end
    | LoggerFoundEvent version =>
        (out ++ [out_task "OK" (Some "start.logger.found") [("version", KStr version)]], Ok tt)
    | JvmResolveEvent version count =>
        match count with
        | None =>
            (out ++ [out_task ".." (Some "start.jvm.resolving")
                       [("version", KStr (version_or_unknown version))]], Ok tt)
        | Some count =>
            (out ++ [out_task "OK" (Some "start.jvm.resolved")
                       [("version", KStr (version_or_unknown version)); ("count", KInt count)];
                     out_finish], Ok tt)
        end
    | OtherEvent => (out, Ok tt)
    end.

Fixpoint StartWatcher_on_events (events : list start_event) : M (list output_call) unit :=
  match events with
  | [] => ret tt
  | event :: rest => (do StartWatcher_on_event event in StartWatcher_on_events rest)%py
  end.

End StartWatcher.

(** A line of the output is open after a task and closed by [finish]. *)
Definition line_open (out : list output_call) : bool :=
  match last out with
  | Some (out_task _ _ _) => true
  | Some out_finish | None => false
  end.

(** The events that end a step of the resolution, and those among them
    after which the watcher calls [finish]. *)
Definition ends_step (event : start_event) : bool :=
  match event with
  | VersionResolveEvent _ done => done
  | JarFoundEvent _ | LoggerFoundEvent _ => true
  | AssetsResolveEvent _ count | LibraryResolveEvent count | JvmResolveEvent _ count =>
      bool_decide (is_Some count)
  | OtherEvent => false
  end.

(** The number of calls on the output that a download event is worth. *)
Definition printed_calls {num} (event : download_event num) : nat :=
  match event with
  | Start _ | Progress _ => 1
  | Complete => 2
  | Other => 0
  end.

(** The events that the start watcher handles. *)
Definition known (event : start_event) : bool :=
  match event with
  | OtherEvent => false
  | _ => true
  end.

(** The tasks among the calls on the output. *)
Definition tasks_printed (calls : list output_call) : nat :=
  sum_list ((fun c => match c with out_task _ _ _ => 1 | out_finish => 0 end) <$> calls).

End cli_start.

(** ** cli/__init__.py: the command wrapper *)

Module cli_cmd.

Definition EXIT_OK : Z := 0.
Definition EXIT_FAILURE : Z := 1.

(** An exception as the [except] clauses of [cmd] look at it: the names of
    its class and of the classes that class inherits from ([isinstance] is
    membership), the classes of [error.reason] in the same way, and the
    attributes that the clauses read, those of the exceptions of vanilla.py
    and download.py (not part of the sources) as the clauses use them:
    [error.version.id], the [id] of each of [error.versions], [error.code],
    and for each of [error.errors] the [name] of the entry and the code. *)
Record exception := mkException {
  classes : list string;
  args : list string;
  reason_classes : list string;
  exc_version_id : string;
  exc_versions : list string;
  exc_code : string;
  exc_errors : list (string * string)
}.

Definition isinstance (cls : string) (classes : list string) : bool :=
  existsb (String.eqb cls) classes.

(** How [handler(ns)] ends. *)
Inductive handler_end :=
| returns
| raises (error : exception).

(** How [cmd] ends: by [sys.exit(code)], or with the exception of the
    handler that no clause takes. *)
Inductive cmd_end :=
| exits (code : Z)
| propagates (error : exception).

(** Calls on [ns.out], whose [task] takes a state that can be [None], and
    [traceback.print_exc()]. *)
Inductive cmd_call :=
| cmd_task (state : option string) (key : option string) (kwargs : list (string * string))
| cmd_finish
| print_exc.

Section Cmd.

(** [_], the [get] of cli/lang.py, which is not part of the sources. *)
Variable translate : string -> string.

(** [", ".join(ids)] *)
Fixpoint join (ids : list string) : string :=
  match ids with
  | [] => ""
  | [id] => id
  | id :: rest => id +:+ ", " +:+ join rest
  end.

(** [socket.timeout]: an alias of the built-in [TimeoutError] (since
    Python 3.10; a class of its own, named [timeout], before). *)
Definition socket_timeout : string := "TimeoutError".

(** [cmd], from the end of [handler(ns)] on: what it prints and how it
    ends. The clauses are tried in the order of the source. *)
Definition cmd (handler : handler_end) : list cmd_call * cmd_end :=
  match handler with
  | returns => ([], exits EXIT_OK)
  | raises error =>
      if isinstance "ValueError" (classes error) then
        ([cmd_task (Some "FAILED") None []; cmd_finish] ++
         flat_map (fun arg => [cmd_task None (Some "echo") [("echo", arg)]; cmd_finish])
           (args error),
         exits EXIT_FAILURE)
      else if isinstance "KeyboardInterrupt" (classes error) then
        ([cmd_finish; cmd_task (Some "HALT") (Some "error.keyboard_interrupt") []; cmd_finish],
         exits EXIT_FAILURE)
      else if isinstance "OSError" (classes error) then
        let key :=
          if isinstance "URLError" (classes error) &&
             isinstance "SSLCertVerificationError" (reason_classes error)
          then "error.cert"
          else if isinstance "URLError" (classes error) ||
                  isinstance "gaierror" (classes error) ||
                  isinstance socket_timeout (classes error)
          then "error.socket"
          else "error.os" in
        ([cmd_task (Some "FAILED") None []; cmd_finish;
          cmd_task None (Some key) []; cmd_finish; print_exc],
         exits EXIT_FAILURE)
      else if isinstance "VersionNotFoundError" (classes error) then
        ([cmd_task (Some "FAILED") (Some "start.version.not_found")
            [("version", exc_version_id error)]; cmd_finish],
         exits EXIT_FAILURE)
      else if isinstance "TooMuchParentsError" (classes error) then
        ([cmd_task (Some "FAILED") (Some "start.version.too_much_parents") []; cmd_finish;
          cmd_task None (Some "echo") [("echo", join (exc_versions error))]; cmd_finish],
         exits EXIT_FAILURE)
      else if isinstance "JarNotFoundError" (classes error) then
        ([cmd_task (Some "FAILED") (Some "start.jar.not_found") []; cmd_finish],
         exits EXIT_FAILURE)
      else if isinstance "JvmNotFoundError" (classes error) then
        ([cmd_task (Some "FAILED") (Some ("start.jvm.not_found." +:+ exc_code error)) [];
          cmd_finish],
         exits EXIT_FAILURE)
      else if isinstance "DownloadError" (classes error) then
        ([cmd_task (Some "FAILED") None []; cmd_finish] ++
         flat_map (fun '(name, code) =>
                     [cmd_task None (Some "download.error")
                        [("name", name);
                         ("message", translate ("download.error." +:+ code))];
                      cmd_finish])
           (exc_errors error),
         exits EXIT_FAILURE)
      else ([], propagates error)
  end.

End Cmd.

(** The classes that a clause of [cmd] names. *)
Definition handled_classes : list string :=
  ["ValueError"; "KeyboardInterrupt"; "OSError"; "VersionNotFoundError";
   "TooMuchParentsError"; "JarNotFoundError"; "JvmNotFoundError"; "DownloadError"].

(** Every [task] of the calls is followed at once by a [finish]. *)
Fixpoint lines_finished (calls : list cmd_call) : bool :=
  match calls with
  | [] => true
  | cmd_task _ _ _ :: rest =>
      match rest with
      | cmd_finish :: rest' => lines_finished rest'
      | _ => false
      end
  | _ :: rest => lines_finished rest
  end.

End cli_cmd.

(** ** Further vocabulary *)

Module histories.

(** What a task can do to the state through its two mutators. *)
Inductive State_op :=
| op_insert (v : value)
| op_clear.

Definition State_apply (s : State) (op : State_op) : State :=
  match op with
  | op_insert v => State_insert v s
  | op_clear => State_clear s
  end.

(** The state after the operations [ops], on a new [State()]. *)
Definition State_after (ops : list State_op) : State :=
  foldl State_apply State_init ops.

End histories.
Export histories.

(** ** The set of the watchers, as CPython keeps it

    [Installer._watchers] is a [set], and the two inner loops of [install]
    iterate it. Its iteration order is the order of the slots of a hash
    table ([Objects/setobject.c] of CPython 3): where a watcher sits depends
    on its hash and, when slots collide, on the watchers added before it.
    The classes of the sources define neither [__hash__] nor [__eq__] for a
    watcher: the hash of a watcher comes from its address, two watchers
    have two hashes, and the number that stands for a watcher,
    [watcher_id], is that hash, a number below [2 ^ 63]. Nothing is
    discarded from the sets of this part, so that no slot holds a dummy
    entry and the count of the active entries is [fill]. *)

Module setobject.

Definition PySet_MINSIZE : nat := 8.
Definition LINEAR_PROBES : Z := 9.
Definition PERTURB_SHIFT : Z := 5.

(** [PySetObject]: the table, a key or nothing in each slot, and the count
    of the slots that hold a key. *)
Record PySetObject := mkPySetObject {
  set_table : list (option positive);
  set_fill : nat
}.

(** [so->mask]: the size of the table, a power of two, less one. *)
Definition set_mask (table : list (option positive)) : Z :=
  (Z.of_nat (length table) - 1)%Z.

(** [set()] *)
Definition set_new : PySetObject :=
  {| set_table := replicate PySet_MINSIZE None; set_fill := 0 |}.

(** The entries that one round of the probing looks at, from slot [i] on:
    ten in a row when they end inside the table, else the one. *)
Definition probes (mask i : Z) : nat :=
  if (i + LINEAR_PROBES <=? mask)%Z then 10 else 1.

(** [perturb >>= PERTURB_SHIFT; i = (i * 5 + 1 + perturb) & mask]: the next
    slot and the next [perturb]. *)
Definition next_probe (mask i perturb : Z) : Z * Z :=
  let perturb := Z.shiftr perturb PERTURB_SHIFT in
  (Z.land (i * 5 + 1 + perturb) mask, perturb).

(** What a round of [set_add_entry] finds in [count] entries from slot [j]
    on: an unused entry, the key itself, or neither. *)
Inductive probe :=
| found_unused (j : nat)
| found_active
| found_nothing.

Fixpoint scan (table : list (option positive)) (key : positive) (j count : nat)
    : probe :=
  match count with
  | O => found_nothing
  | S count' =>
      match table !! j with
      | Some None => found_unused j
      | Some (Some key') =>
          if decide (key' = key) then found_active else scan table key (S j) count'
      | None => found_nothing
      end
  end.

(** The same for [set_insert_clean], which looks for an unused entry
    only. *)
Fixpoint scan_unused (table : list (option positive)) (j count : nat) : option nat :=
  match count with
  | O => None
  | S count' =>
      match table !! j with
      | Some None => Some j
      | _ => scan_unused table (S j) count'
      end
  end.

(** The loop of [set_insert_clean], which puts a key that the table does
    not hold in the first unused entry of its probes. [None] when the fuel
    runs out. *)
Fixpoint set_insert_clean_loop (fuel : nat) (table : list (option positive))
    (mask : Z) (key : positive) (i perturb : Z) : option (list (option positive)) :=
  match fuel with
  | O => None
  | S fuel' =>
      match scan_unused table (Z.to_nat i) (probes mask i) with
      | Some j => Some (<[j := Some key]> table)
      | None =>
          let '(i', perturb') := next_probe mask i perturb in
          set_insert_clean_loop fuel' table mask key i' perturb'
      end
  end.

Definition set_insert_clean (fuel : nat) (table : list (option positive)) (mask : Z)
    (key : positive) : option (list (option positive)) :=
  set_insert_clean_loop fuel table mask key (Z.land (Z.pos key) mask) (Z.pos key).

(** [set_table_resize]: a table of the first size above [minused] among
    8, 16, 32, ..., filled with the keys of the old table in the order of
    its slots. *)
Definition set_table_resize (fuel : nat) (so : PySetObject) (minused : nat)
    : option PySetObject :=
  let newsize :=
    Nat.iter 64 (fun newsize => if (newsize <=? minused)%nat then newsize * 2 else newsize)
      PySet_MINSIZE in
  let newmask := (Z.of_nat newsize - 1)%Z in
  let newtable :=
    foldl (fun newtable key =>
             match newtable with
             | Some newtable => set_insert_clean fuel newtable newmask key
             | None => None
             end)
      (Some (replicate newsize None)) (omap id (set_table so)) in
  match newtable with
  | Some newtable => Some {| set_table := newtable; set_fill := set_fill so |}
  | None => None
  end.

(** The loop of [set_add_entry]: nothing changes when the key is found;
    when an unused entry comes first the key goes there, and the table is
    resized once three fifths of it are taken. [None] when the fuel runs
    out. *)
Fixpoint set_add_entry_loop (fuel : nat) (so : PySetObject) (key : positive)
    (i perturb : Z) : option PySetObject :=
  match fuel with
  | O => None
  | S fuel' =>
      let mask := set_mask (set_table so) in
      match scan (set_table so) key (Z.to_nat i) (probes mask i) with
      | found_active => Some so
      | found_unused j =>
          let so := {| set_table := <[j := Some key]> (set_table so);
                       set_fill := S (set_fill so) |} in
          if (Z.of_nat (set_fill so) * 5 <? mask * 3)%Z then Some so
          else set_table_resize fuel so
                 (if (50000 <? Z.of_nat (set_fill so))%Z then set_fill so * 2
                  else set_fill so * 4)
      | found_nothing =>
          let '(i', perturb') := next_probe mask i perturb in
          set_add_entry_loop fuel' so key i' perturb'
      end
  end.

(** [so.add(key)] *)
Definition set_add_entry (fuel : nat) (so : PySetObject) (key : positive)
    : option PySetObject :=
  set_add_entry_loop fuel so key
    (Z.land (Z.pos key) (set_mask (set_table so))) (Z.pos key).

(** [for key in so]: the keys, slot after slot. *)
Definition set_iter (so : PySetObject) : list positive := omap id (set_table so).

Section Watchers.

Context {W : Type}.

(** [self._watchers.add(watcher)] *)
Definition add_watcher_in (fuel : nat) (watcher : @Watcher W) (so : PySetObject)
    : option PySetObject :=
  set_add_entry fuel so (watcher_id watcher).

(** [add_watcher] for each watcher of [watchers], first to last. *)
Fixpoint add_watchers (fuel : nat) (watchers : list (@Watcher W)) (so : PySetObject)
    : option PySetObject :=
  match watchers with
  | [] => Some so
  | watcher :: rest =>
      match add_watcher_in fuel watcher so with
      | Some so' => add_watchers fuel rest so'
      | None => None
      end
  end.

(** The [for task in self._tasks] of [install] with the set [so] for
    [self._watchers]: both inner loops go through the table. *)
Fixpoint install_loop_in (so : PySetObject) (tasks : list (@Task W))
    : M (State * list call) unit :=
  fun '(state, log) =>
    match tasks with
    | [] => ((state, log), Ok tt)
    | task :: rest =>
        let log := log ++ ((fun w => on_task_begin w task) <$> set_iter so) in
        let log := log ++ [execute_call task] in
        match call_execute task state with
        | (state, inl e) => ((state, log), Err e)
        | (state, inr _) =>
            let log := log ++ ((fun w => on_task_end w task) <$> set_iter so) in
            install_loop_in so rest (state, log)
        end
    end.


End Watchers.

(** The slot of a key in the table of a new set, when it is free: the
    hash modulo 8. *)
Definition slot (key : positive) : nat := Z.to_nat (Z.land (Z.pos key) 7).

(** The table of 8 slots that holds each of [keys] in its slot, and its
    keys slot after slot. *)
Definition layout (keys : list positive) : list (option positive) :=
  (fun s => head (filter (fun key => slot key = s) keys)) <$> seq 0 PySet_MINSIZE.


End setobject.
Export setobject.

(** * Properties *)

(** ** The state *)

Section State_properties.

Implicit Types (s : State) (v w : value) (ty : pytype).

Lemma State_insert_lookup s v : data (State_insert v s) !! py_type v = Some v.
Proof. apply lookup_insert_eq. Qed.

Lemma State_insert_lookup_ne s v ty :
  py_type v ≠ ty -> data (State_insert v s) !! ty = data s !! ty.
Proof. intros Hne. simpl. by rewrite lookup_insert_ne. Qed.

Lemma State_insert_typed s v : State_typed s -> State_typed (State_insert v s).
Proof.
  intros Hs ty u. simpl. rewrite lookup_insert.
  case_decide as Hty; [intros [= <-]; done | apply Hs].
Qed.

Lemma State_init_typed : State_typed State_init.
Proof. intros ty v. simpl. by rewrite lookup_empty. Qed.

(** In a typed state the instances of a class are the entry of its key. *)
Lemma State_instances_typed s ty :
  State_typed s ->
  State_instances s ty = match data s !! ty with Some v => [v] | None => [] end.
Proof.
  destruct s as [m]. unfold State_typed, State_instances. simpl.
  induction m as [|k x m Hk Hfold IH] using map_first_key_ind; intros Htyped.
  - by rewrite map_to_list_empty, lookup_empty.
  - rewrite map_to_list_insert_first_key, fmap_cons by done. cbn [snd].
    assert (Hx : py_type x = k) by (apply Htyped; apply lookup_insert_eq).
    assert (Hm : forall ty' v', m !! ty' = Some v' -> py_type v' = ty').
    { intros ty' v' Hv'. apply Htyped. rewrite lookup_insert_ne; [done|].
      intros ->. congruence. }
    rewrite filter_cons, (IH Hm), lookup_insert, Hx.
    destruct (decide (k = ty)) as [<-|Hkt]; [by rewrite Hk | done].
Qed.

End State_properties.

(** C5: a value inserted is the value [get] returns for its type; a second
    value of the same type takes its place, as if the first had never been
    inserted, and a state filled by [insert] holds one instance of the type. *)
Theorem State_insert_then_get (s : State) (v w : value) :
  State_get (State_insert v s) (py_type v) = Ok v /\
  (py_type w = py_type v ->
     State_get (State_insert w (State_insert v s)) (py_type v) = Ok w /\
     State_insert w (State_insert v s) = State_insert w s /\
     (State_typed s ->
        State_instances (State_insert w (State_insert v s)) (py_type v) = [w])).
Proof.
  split.
  - unfold State_get. by rewrite State_insert_lookup.
  - intros Hty. split; [|split].
    + unfold State_get. by rewrite <- Hty, State_insert_lookup.
    + unfold State_insert. simpl. by rewrite Hty, insert_insert_eq.
    + intros Hs. rewrite State_instances_typed
        by (by do 2 apply State_insert_typed).
      by rewrite <- Hty, State_insert_lookup.
Qed.

Lemma State_insert_then_get_witness :
  let s := State_init in
  let v := VMetadataRoot (mkMetadataRoot "fabric-1.20.1-0.14.21") in
  let w := VMetadataRoot (mkMetadataRoot "quilt-1.20.1-0.20.0") in
  py_type w = py_type v /\ State_typed s /\
  State_get (State_insert w (State_insert v s)) (py_type v) = Ok w /\
  State_instances (State_insert w (State_insert v s)) (py_type v) = [w].
Proof.
  intros s v w.
  destruct (State_insert_then_get s v w) as [_ H].
  destruct (H eq_refl) as (Hget & _ & Hinst).
  split; [reflexivity|]. split; [apply State_init_typed|].
  split; [exact Hget | exact (Hinst State_init_typed)].
Defined.

(** What [get] gives for a key that the dictionary can look up. *)
Lemma State_get_stored (s : State) (ty : pytype) :
  State_get s ty = Ok (match data s !! ty with Some v => v | None => VNone end).
Proof. unfold State_get. by destruct (data s !! ty). Qed.

(** C6, as the code has it: [get] raises what the hash of the type raises,
    and nothing else; for a type that has a hash it returns the stored
    instance when the type has one and [None] when it has none. *)
Theorem State_get_key_total (s : State) (ty : type_object) :
  raised (State_get_key s ty) = raised (type_hash ty) /\
  (forall h, type_hash ty = Ok h ->
     State_get_key s ty =
       Ok (match data s !! type_class ty with Some v => v | None => VNone end) /\
     forall v, State_get_key (State_insert v s) ty =
       Ok (if decide (py_type v = type_class ty) then v
           else match data s !! type_class ty with Some u => u | None => VNone end)).
Proof.
  unfold State_get_key. split.
  - destruct (type_hash ty) as [e|h]; [done|]. by rewrite State_get_stored.
  - intros h ->. split; [apply State_get_stored|].
    intros v. rewrite State_get_stored.
    destruct (decide (py_type v = type_class ty)) as [<-|Hne].
    + by rewrite State_insert_lookup.
    + by rewrite State_insert_lookup_ne.
Qed.

Lemma State_get_key_total_witness :
  let root := VMetadataRoot (mkMetadataRoot "fabric-1.20.1-0.14.21") in
  let s := State_insert root State_init in
  let MetadataRoot_class := {| type_class := cls_MetadataRoot; type_hash := Ok 8795381%Z |} in
  let FabricRoot_class := {| type_class := cls_FabricRoot; type_hash := Ok 8795402%Z |} in
  type_hash MetadataRoot_class = Ok 8795381%Z /\
  type_hash FabricRoot_class = Ok 8795402%Z /\
  State_get_key s MetadataRoot_class = Ok root /\
  State_get_key s FabricRoot_class = Ok VNone.
Proof.
  intros root s MetadataRoot_class FabricRoot_class.
  split; [reflexivity|]. split; [reflexivity|]. split.
  - exact (proj1 (proj2 (State_get_key_total s MetadataRoot_class) 8795381%Z eq_refl)).
  - exact (proj1 (proj2 (State_get_key_total s FabricRoot_class) 8795402%Z eq_refl)).
Defined.

(** C6, as the specification has it, fails: a class whose metaclass sets
    [__hash__] to [None] is a type, and [get] of it raises [TypeError], in
    the empty state as in any other. *)
Lemma State_get_unhashable_type :
  let Unhashable := {| type_class := Class "Unhashable"; type_hash := Err TypeError |} in
  State_get_key State_init Unhashable = Err TypeError /\
  raised (State_get_key State_init Unhashable) <> None.
Proof. intros Unhashable. split; [reflexivity | discriminate]. Qed.

(** ** The run of an installer *)

Section Install_properties.

Context {W : Type}.

Implicit Types (task : @Task W) (tasks : list (@Task W)) (self : @Installer W).
Implicit Types (state : State) (log : list (@call W)) (watchers : gset positive).

(** The calls of a run are appended to those made before it. *)
Lemma install_loop_log watchers tasks state log :
  install_loop watchers tasks (state, log) =
  let '((state', log'), r) := install_loop watchers tasks (state, []) in
  ((state', log ++ log'), r).
Proof.
  revert state log. induction tasks as [|task tasks IH]; intros state log.
  - simpl. by rewrite app_nil_r.
  - simpl. destruct (call_execute task state) as [state' [e|[]]].
    + by rewrite <- !app_assoc.
    + rewrite IH. symmetry. rewrite IH.
      destruct (install_loop watchers tasks (state', [])) as [[state'' log''] r].
      by rewrite <- !app_assoc.
Qed.

Lemma install_loop_cons watchers task tasks state :
  install_loop watchers (task :: tasks) (state, []) =
  match call_execute task state with
  | (state', inl e) => ((state', aborted_calls (elements watchers) task), Err e)
  | (state', inr _) =>
      let '((state'', log), r) := install_loop watchers tasks (state', []) in
      ((state'', completed_calls (elements watchers) task ++ log), r)
  end.
Proof.
  simpl. destruct (call_execute task state) as [state' [e|[]]]; [done|].
  rewrite install_loop_log.
  destruct (install_loop watchers tasks (state', [])) as [[state'' log''] r].
  unfold completed_calls. by rewrite <- !app_assoc.
Qed.

Lemma executed_app log log' : executed (log ++ log') = executed log ++ executed log'.
Proof. apply omap_app. Qed.

Lemma executed_hooks (f : positive -> @call W) (order : list positive) :
  (forall w, match f w with execute_call _ => False | _ => True end) ->
  executed (f <$> order) = [].
Proof.
  intros Hf. induction order as [|w order IH]; [done|].
  unfold executed in *. rewrite fmap_cons. simpl.
  specialize (Hf w). destruct (f w); [exact IH | contradiction | exact IH].
Qed.

Lemma executed_completed order task : executed (completed_calls order task) = [task].
Proof.
  unfold completed_calls.
  rewrite executed_app, executed_hooks by done.
  change (execute_call task :: ?l) with ([execute_call task] ++ l).
  rewrite executed_app, (executed_hooks (fun w => on_task_end w task)) by done.
  done.
Qed.

Lemma executed_aborted order task : executed (aborted_calls order task) = [task].
Proof. unfold aborted_calls. by rewrite executed_app, executed_hooks. Qed.

Lemma executed_concat_completed order tasks :
  executed (concat (completed_calls order <$> tasks)) = tasks.
Proof.
  induction tasks as [|task tasks IH]; [done|].
  rewrite fmap_cons. simpl. by rewrite executed_app, executed_completed, IH.
Qed.

(** The shape of every run: the tasks before the first failure complete,
    each between its two rounds of hooks; the failing task has its first
    round and its call only. *)
Lemma install_loop_shape watchers tasks state :
  let order := elements watchers in
  match install_loop watchers tasks (state, []) with
  | ((state', log), inr _) =>
      completes tasks state state' /\
      log = concat (completed_calls order <$> tasks)
  | ((state', log), inl e) =>
      exists done task rest state1,
        tasks = done ++ task :: rest /\
        completes done state state1 /\
        call_execute task state1 = (state', Err e) /\
        log = concat (completed_calls order <$> done) ++ aborted_calls order task
  end.
Proof.
  intros order. revert state. induction tasks as [|task tasks IH]; intros state.
  - simpl. split; [constructor | done].
  - rewrite install_loop_cons.
    destruct (call_execute task state) as [state1 [e|[]]] eqn:Hcall.
    + exists [], task, tasks, state. repeat split; [constructor | done].
    + specialize (IH state1).
      destruct (install_loop watchers tasks (state1, [])) as [[state2 log] [e|[]]].
      * destruct IH as (done & task' & rest & state3 & -> & Hdone & Hfail & ->).
        exists (task :: done), task', rest, state3.
        split; [done|]. split; [by econstructor|]. split; [done|].
        rewrite fmap_cons. simpl. by rewrite <- app_assoc.
      * destruct IH as [Hall ->]. split; [by econstructor | done].
Qed.

End Install_properties.

Section Installer_properties.

Context {W : Type}.

Implicit Types (task : @Task W) (tasks : list (@Task W)) (self : @Installer W).

(** A call of [execute] with the state alone is a call of the body of an
    [execute(self, state)]. *)
Lemma completes_bodies tasks state state' :
  completes tasks state state' -> bodies_return tasks state state'.
Proof.
  induction 1 as [|task tasks state state1 state2 Hcall _ IH]; [constructor|].
  unfold call_execute in Hcall.
  destruct (execute task) as [body|body] eqn:Hexec; [by econstructor | done].
Qed.

Lemma call_execute_raises task state state' e :
  call_execute task state = (state', Err e) -> body_raises task state state' e.
Proof.
  unfold call_execute, body_raises.
  destruct (execute task) as [body|body]; [done|]. by intros [= <- <-].
Qed.

(** C4: [install] takes the tasks in list order; each task whose
    [execute] returns has its begin hooks, the call of its [execute] on the
    state that the task before it left, and its end hooks; the first
    [execute] that raises ends the run with its exception and with the
    state as that call left it, after the begin hooks and the call of that
    task, with no end hook for it and no call for a later task. *)
Theorem install_in_order_until_error self :
  let order := elements (_watchers self) in
  match Installer_install self with
  | ((self', log), inr _) =>
      _tasks self' = _tasks self /\
      _watchers self' = _watchers self /\
      bodies_return (_tasks self) (_state self) (_state self') /\
      log = concat (completed_calls order <$> _tasks self) /\
      executed log = _tasks self
  | ((self', log), inl e) =>
      exists done task rest state,
        _tasks self = done ++ task :: rest /\
        _tasks self' = _tasks self /\
        _watchers self' = _watchers self /\
        bodies_return done (_state self) state /\
        body_raises task state (_state self') e /\
        log = concat (completed_calls order <$> done) ++ aborted_calls order task /\
        executed log = done ++ [task]
  end.
Proof.
  intros order. unfold Installer_install.
  pose proof (install_loop_shape (_watchers self) (_tasks self) (_state self)) as H.
  destruct (install_loop (_watchers self) (_tasks self) (_state self, []))
    as [[state log] [e|[]]]; simpl in *.
  - destruct H as (done & task & rest & state1 & Htasks & Hdone & Hfail & ->).
    exists done, task, rest, state1.
    split; [done|]. split; [done|]. split; [done|].
    split; [by apply completes_bodies|]. split; [by apply call_execute_raises|].
    split; [done|].
    by rewrite executed_app, executed_concat_completed, executed_aborted.
  - destruct H as [Hall ->].
    split; [done|]. split; [done|]. split; [by apply completes_bodies|].
    split; [done|]. apply executed_concat_completed.
Qed.

End Installer_properties.

(** A run of three tasks under one watcher: the first task inserts a
    root in the state, the second inserts another and raises, the third is
    not reached. The run ends with the exception of the second task and
    with the state as the two bodies left it. *)
Lemma install_in_order_until_error_run :
  let root := VMetadataRoot (mkMetadataRoot "1.20.1") in
  let root' := VMetadataRoot (mkMetadataRoot "fabric-1.20.1-0.14.21") in
  let first := @inserting_task unit 1 "MetadataTask" root in
  let second := @failing_task unit 2 "JarTask" root' (Raised "TaskError") in
  let third := @idle_task unit 3 "AssetsTask" in
  let self := {| _tasks := [first; second; third]; _state := State_init;
                 _watchers := {[1%positive]} |} in
  Installer_install self =
    ((with_state (State_insert root' (State_insert root State_init)) self,
      [on_task_begin 1 first; execute_call first; on_task_end 1 first;
       on_task_begin 1 second; execute_call second]),
     Err (Raised "TaskError")) /\
  exists done task rest state,
    [first; second; third] = done ++ task :: rest /\
    bodies_return done State_init state /\
    body_raises task state (State_insert root' (State_insert root State_init))
      (Raised "TaskError") /\
    executed (snd (fst (Installer_install self))) = done ++ [task].
Proof.
  intros root root' first second third self.
  pose proof (install_in_order_until_error self) as H.
  assert (Hrun : Installer_install self =
    ((with_state (State_insert root' (State_insert root State_init)) self,
      [on_task_begin 1 first; execute_call first; on_task_end 1 first;
       on_task_begin 1 second; execute_call second]),
     Err (Raised "TaskError"))) by reflexivity.
  split; [exact Hrun|].
  rewrite Hrun in H |- *. cbn zeta in H.
  destruct H as (done & task & rest & state & Htasks & _ & _ & Hdone & Hfail & _ & Hexec).
  by exists done, task, rest, state.
Defined.

(** ** The order of the watchers *)

Section Watcher_order.

Context {W : Type}.

Implicit Types (task : @Task W) (tasks : list (@Task W)) (self : @Installer W).
Implicit Types (so : PySetObject) (key : positive) (keys : list positive).
Implicit Types (watchers : list (@Watcher W)).


Lemma slot_lt key : slot key < 8.
Proof.
  unfold slot. change 7%Z with (Z.ones 3). rewrite Z.land_ones by lia.
  pose proof (Z.mod_pos_bound (Z.pos key) (2 ^ 3)). lia.
Qed.

Lemma layout_lookup keys s :
  s < 8 -> layout keys !! s = Some (head (filter (fun key => slot key = s) keys)).
Proof.
  intros Hs. unfold layout. rewrite list_lookup_fmap, lookup_seq_lt by done. done.
Qed.

Lemma layout_length keys : length (layout keys) = 8.
Proof. unfold layout. by rewrite length_fmap, length_seq. Qed.

Lemma filter_slot_absent keys s :
  s ∉ slot <$> keys -> filter (fun key => slot key = s) keys = [].
Proof.
  intros Hs. induction keys as [|key keys IH]; [done|].
  rewrite fmap_cons, not_elem_of_cons in Hs. destruct Hs as [Hne Hs].
  rewrite filter_cons_False by done. by apply IH.
Qed.

Lemma layout_snoc keys key :
  slot key ∉ slot <$> keys ->
  <[slot key := Some key]> (layout keys) = layout (keys ++ [key]).
Proof.
  intros Hkey. apply list_eq. intros s.
  destruct (decide (s < 8)) as [Hs|Hs].
  - rewrite (layout_lookup (keys ++ [key])) by done. rewrite filter_app.
    destruct (decide (s = slot key)) as [->|Hne].
    + rewrite list_lookup_insert_eq by (rewrite layout_length; apply slot_lt).
      rewrite filter_slot_absent by done. by rewrite filter_cons_True.
    + rewrite list_lookup_insert_ne by done. rewrite layout_lookup by done.
      rewrite (filter_cons_False _ key) by done. by rewrite filter_nil, app_nil_r.
  - rewrite !lookup_ge_None_2; [done| |].
    + rewrite layout_length. lia.
    + rewrite length_insert, layout_length. lia.
Qed.


(** A key in a table of 8 slots, less than half full, whose slot is free:
    the first probe finds the slot, and the table is not resized. *)
Lemma set_add_entry_free fuel keys key :
  slot key ∉ slot <$> keys -> length keys < 4 ->
  set_add_entry (S fuel) {| set_table := layout keys; set_fill := length keys |} key =
    Some {| set_table := layout (keys ++ [key]); set_fill := length (keys ++ [key]) |}.
Proof.
  intros Hkey Hlen. unfold set_add_entry. cbn [set_table set_fill].
  unfold set_mask. rewrite layout_length. change (Z.of_nat 8 - 1)%Z with 7%Z.
  cbn [set_add_entry_loop set_table set_fill]. unfold set_mask.
  rewrite layout_length. change (Z.of_nat 8 - 1)%Z with 7%Z.
  assert (Hprobes : probes 7 (Z.land (Z.pos key) 7) = 1).
  { unfold probes, LINEAR_PROBES.
    pose proof (Z.land_nonneg (Z.pos key) 7) as [_ Hnn].
    destruct (Z.leb_spec (Z.land (Z.pos key) 7 + 9) 7); [lia | done]. }
  rewrite Hprobes. cbn [scan]. fold (slot key).
  rewrite layout_lookup by apply slot_lt. rewrite filter_slot_absent by done.
  cbn [head]. rewrite layout_snoc by done.
  rewrite length_app. cbn [length].
  replace (length keys + 1) with (S (length keys)) by lia.
  destruct (Z.ltb_spec (Z.of_nat (S (length keys)) * 5) (7 * 3)); [done | lia].
Qed.

Lemma add_watchers_free fuel watchers keys :
  NoDup (slot <$> (keys ++ (watcher_id <$> watchers))) ->
  length (keys ++ (watcher_id <$> watchers)) <= 4 ->
  add_watchers (S fuel) watchers
    {| set_table := layout keys; set_fill := length keys |} =
  Some {| set_table := layout (keys ++ (watcher_id <$> watchers));
          set_fill := length (keys ++ (watcher_id <$> watchers)) |}.
Proof.
  revert keys. induction watchers as [|watcher watchers IH]; intros keys Hnd Hlen.
  - simpl. by rewrite app_nil_r.
  - rewrite fmap_cons in *. cbn [add_watchers]. unfold add_watcher_in.
    rewrite (cons_middle (watcher_id watcher)), (assoc_L (++)) in Hnd, Hlen |- *.
    rewrite set_add_entry_free.
    + by apply IH.
    + rewrite fmap_app in Hnd. apply NoDup_app in Hnd as [Hnd _].
      rewrite fmap_app in Hnd. apply NoDup_app in Hnd as (_ & Hnd & _).
      intros Hin. apply (Hnd _ Hin). simpl. left.
    + rewrite !length_app in Hlen. simpl in Hlen. lia.
Qed.


(** Keys in slots of their own: a slot names its key. *)
Lemma slot_inj keys key key' :
  NoDup (slot <$> keys) -> key ∈ keys -> key' ∈ keys -> slot key = slot key' ->
  key = key'.
Proof.
  intros Hnd Hk Hk' Hs. induction keys as [|k keys IH]; [by apply elem_of_nil in Hk|].
  rewrite fmap_cons in Hnd. apply NoDup_cons in Hnd as [Hnotin Hnd].
  apply elem_of_cons in Hk as [->|Hk]; apply elem_of_cons in Hk' as [->|Hk'].
  - done.
  - exfalso. apply Hnotin. rewrite Hs. by apply list_elem_of_fmap_2.
  - exfalso. apply Hnotin. rewrite <- Hs. by apply list_elem_of_fmap_2.
  - by apply IH.
Qed.

Lemma head_filter_slot keys key :
  NoDup (slot <$> keys) ->
  head (filter (fun key' => slot key' = slot key) keys) = Some key <-> key ∈ keys.
Proof.
  intros Hnd. split.
  - intros Hhead. apply head_Some in Hhead as [l Hl].
    assert (Hin : key ∈ filter (fun key' => slot key' = slot key) keys)
      by (rewrite Hl; left).
    by apply list_elem_of_filter in Hin as [_ Hin].
  - intros Hin.
    assert (Hf : key ∈ filter (fun key' => slot key' = slot key) keys)
      by (by apply list_elem_of_filter).
    destruct (filter (fun key' => slot key' = slot key) keys) as [|k l] eqn:Hl.
    + by apply elem_of_nil in Hf.
    + simpl. f_equal.
      assert (Hk : k ∈ filter (fun key' => slot key' = slot key) keys)
        by (rewrite Hl; left).
      apply list_elem_of_filter in Hk as [Hs Hk].
      by apply (slot_inj keys).
Qed.







(** A run with the table [so] is the run of the installer whose set of
    watchers is enumerated as the table has them. *)
Lemma install_loop_in_elements so (ids : gset positive) tasks store :
  set_iter so = elements ids ->
  install_loop_in so tasks store = install_loop ids tasks store.
Proof.
  intros Hso. revert store. induction tasks as [|task tasks IH]; intros [state log].
  - done.
  - cbn [install_loop_in install_loop]. rewrite Hso.
    destruct (call_execute task state) as [state' [e|[]]]; [done | apply IH].
Qed.


End Watcher_order.



(** ** Insertion relative to a task type *)

Section Insertion_properties.

Context {W : Type}.

Implicit Types (task t : @Task W) (tasks : list (@Task W)) (self : @Installer W).

Lemma list_insert_nat {A} (i : nat) (x : A) (l : list A) :
  i <= length l -> list_insert (Z.of_nat i) x l = take i l ++ x :: drop i l.
Proof.
  intros Hi. unfold list_insert.
  assert ((Z.of_nat i <? 0)%Z = false) as -> by (apply Z.ltb_ge; lia).
  rewrite Z.min_l by lia. by rewrite Nat2Z.id.
Qed.

Lemma lookup_inserted {A} (i : nat) (x : A) (l : list A) :
  i <= length l -> (take i l ++ x :: drop i l) !! i = Some x.
Proof.
  intros Hi. rewrite lookup_app_r by (rewrite length_take; lia).
  rewrite length_take, Nat.min_l by lia. by rewrite Nat.sub_diag.
Qed.

Lemma insert_task_tasks t index self :
  _tasks (fst (Installer_insert_task t index self)) = list_insert index t (_tasks self).
Proof.
  unfold Installer_insert_task, on_state. simpl.
  by destruct (setup t (_state self)) as [state r].
Qed.

Lemma insert_task_returns t index self :
  setup_returns t -> snd (Installer_insert_task t index self) = Ok tt.
Proof.
  intros Ht. unfold Installer_insert_task, on_state. simpl.
  destruct (Ht (_state self)) as [state' ->]. done.
Qed.

Lemma Forall_list_insert {A} (P : A -> Prop) (i : nat) (x : A) (l : list A) :
  P x -> Forall P l -> Forall P (take i l ++ x :: drop i l).
Proof.
  intros Hx Hl. apply Forall_app. split; [by apply Forall_take|].
  constructor; [done | by apply Forall_drop].
Qed.

(** Without a task of type [after] from index [i] on, the loop runs to the
    end of the list and leaves in [task] the last task it has seen. *)
Lemma append_task_loop_absent fuel after i task self :
  Forall (fun t => task_type t <> after) (drop i (_tasks self)) ->
  length (_tasks self) - i < fuel ->
  append_task_loop fuel after i task self =
  Some (self, Ok (default task (last (drop i (_tasks self))))).
Proof.
  revert i task. induction fuel as [|fuel IH]; intros i task Habs Hfuel; [lia|].
  simpl. destruct (_tasks self !! i) as [t|] eqn:Hi.
  - rewrite (drop_S _ _ _ Hi) in *. inversion Habs as [|? ? Ht Hrest]; subst.
    rewrite decide_False by done.
    apply lookup_lt_Some in Hi. rewrite IH by (done || lia).
    rewrite last_cons. by destruct (last (drop (S i) (_tasks self))).
  - apply lookup_ge_None in Hi. by rewrite drop_ge.
Qed.

Lemma prepend_task_loop_absent fuel before i task self :
  Forall (fun t => task_type t <> before) (drop i (_tasks self)) ->
  length (_tasks self) - i < fuel ->
  prepend_task_loop fuel before i task self =
  Some (self, Ok (default task (last (drop i (_tasks self))))).
Proof.
  revert i task. induction fuel as [|fuel IH]; intros i task Habs Hfuel; [lia|].
  simpl. destruct (_tasks self !! i) as [t|] eqn:Hi.
  - rewrite (drop_S _ _ _ Hi) in *. inversion Habs as [|? ? Ht Hrest]; subst.
    rewrite decide_False by done.
    apply lookup_lt_Some in Hi. rewrite IH by (done || lia).
    rewrite last_cons. by destruct (last (drop (S i) (_tasks self))).
  - apply lookup_ge_None in Hi. by rewrite drop_ge.
Qed.

(** With a task of type [after] at index [i], the body inserts that task
    at [i + 1], where the next iteration finds it: the loop has no end. *)
Lemma append_task_loop_at_anchor fuel after i task self t :
  _tasks self !! i = Some t -> task_type t = after -> setup_returns t ->
  append_task_loop fuel after i task self = None.
Proof.
  revert i task self. induction fuel as [|fuel IH]; intros i task self Hi Ht Hset; [done|].
  simpl. rewrite Hi, decide_True by done.
  pose proof (insert_task_tasks t (Z.of_nat i + 1) self) as Htasks.
  pose proof (insert_task_returns t (Z.of_nat i + 1) self Hset) as Hret.
  destruct (Installer_insert_task t (Z.of_nat i + 1) self) as [self' r].
  simpl in *. subst r. apply IH; [|done..].
  apply lookup_lt_Some in Hi. rewrite Htasks.
  replace (Z.of_nat i + 1)%Z with (Z.of_nat (S i)) by lia.
  rewrite list_insert_nat by lia. apply lookup_inserted. lia.
Qed.

Lemma prepend_task_loop_at_anchor fuel before i task self t :
  _tasks self !! i = Some t -> task_type t = before -> setup_returns t ->
  prepend_task_loop fuel before i task self = None.
Proof.
  revert i task self. induction fuel as [|fuel IH]; intros i task self Hi Ht Hset; [done|].
  simpl. rewrite Hi, decide_True by done.
  pose proof (insert_task_tasks t (Z.of_nat i) self) as Htasks.
  pose proof (insert_task_returns t (Z.of_nat i) self Hset) as Hret.
  destruct (Installer_insert_task t (Z.of_nat i) self) as [self' r].
  simpl in *. subst r. apply IH; [|done..].
  rewrite Htasks. pose proof (lookup_lt_Some _ _ _ Hi) as Hlt.
  rewrite list_insert_nat by lia.
  rewrite lookup_app_r by (rewrite length_take; lia).
  rewrite length_take, Nat.min_l by lia.
  replace (S i - i) with 1 by lia. simpl.
  by rewrite lookup_drop, Nat.add_0_r.
Qed.

(** The loop reaches the first task of the type, whatever comes before. *)
Lemma append_task_loop_present fuel after i task self :
  Forall setup_returns (_tasks self) ->
  Exists (fun t => task_type t = after) (drop i (_tasks self)) ->
  append_task_loop fuel after i task self = None.
Proof.
  intros Hset. revert i task. induction fuel as [|fuel IH]; intros i task Hex; [done|].
  destruct (_tasks self !! i) as [t|] eqn:Hi.
  - destruct (decide (task_type t = after)) as [Ht|Ht].
    + apply (append_task_loop_at_anchor _ _ _ _ _ t); [done..|].
      eapply Forall_lookup_1; eauto.
    + simpl. rewrite Hi, decide_False by done. apply IH.
      rewrite (drop_S _ _ _ Hi) in Hex. by inversion Hex; subst.
  - apply lookup_ge_None in Hi. rewrite drop_ge in Hex by done. inversion Hex.
Qed.

Lemma prepend_task_loop_present fuel before i task self :
  Forall setup_returns (_tasks self) ->
  Exists (fun t => task_type t = before) (drop i (_tasks self)) ->
  prepend_task_loop fuel before i task self = None.
Proof.
  intros Hset. revert i task. induction fuel as [|fuel IH]; intros i task Hex; [done|].
  destruct (_tasks self !! i) as [t|] eqn:Hi.
  - destruct (decide (task_type t = before)) as [Ht|Ht].
    + apply (prepend_task_loop_at_anchor _ _ _ _ _ t); [done..|].
      eapply Forall_lookup_1; eauto.
    + simpl. rewrite Hi, decide_False by done. apply IH.
      rewrite (drop_S _ _ _ Hi) in Hex. by inversion Hex; subst.
  - apply lookup_ge_None in Hi. rewrite drop_ge in Hex by done. inversion Hex.
Qed.

(** [append_task] and [prepend_task] with a type given, on the two kinds
    of list. *)
Lemma append_task_absent fuel task after self :
  Forall (fun t => task_type t <> after) (_tasks self) ->
  length (_tasks self) < fuel ->
  Installer_append_task fuel task (Some after) self =
  Some (Installer_insert_task (default task (last (_tasks self)))
          (Z.of_nat (length (_tasks self))) self).
Proof.
  intros Habs Hfuel. unfold Installer_append_task.
  rewrite append_task_loop_absent by (rewrite ?drop_0; done || lia).
  by rewrite drop_0.
Qed.

Lemma prepend_task_absent fuel task before self :
  Forall (fun t => task_type t <> before) (_tasks self) ->
  length (_tasks self) < fuel ->
  Installer_prepend_task fuel task (Some before) self =
  Some (Installer_insert_task (default task (last (_tasks self))) 0 self).
Proof.
  intros Habs Hfuel. unfold Installer_prepend_task.
  rewrite prepend_task_loop_absent by (rewrite ?drop_0; done || lia).
  by rewrite drop_0.
Qed.

Lemma append_task_present fuel task after self :
  Forall setup_returns (_tasks self) ->
  Exists (fun t => task_type t = after) (_tasks self) ->
  Installer_append_task fuel task (Some after) self = None.
Proof.
  intros Hset Hex. unfold Installer_append_task.
  by rewrite append_task_loop_present by (rewrite ?drop_0; done).
Qed.

Lemma prepend_task_present fuel task before self :
  Forall setup_returns (_tasks self) ->
  Exists (fun t => task_type t = before) (_tasks self) ->
  Installer_prepend_task fuel task (Some before) self = None.
Proof.
  intros Hset Hex. unfold Installer_prepend_task.
  by rewrite prepend_task_loop_present by (rewrite ?drop_0; done).
Qed.

Lemma plain_task_setup_returns id cls : setup_returns (@plain_task W id cls).
Proof. intros state. by exists state. Qed.

End Insertion_properties.

(** C1 fails on the code: in both loops the loop variable is the parameter
    [task]. With no task of the given type in a list that is not empty, the
    last task of the list is inserted a second time and the new task is
    not; with a task of the type in the list, that task is inserted next to
    itself again and again, and the call has no end. The call of
    [add_fabric_tasks] on a sequence with its [MetadataTask] is of the
    second kind. *)
Theorem insert_relative_loses_the_task :
  let metadata := @plain_task unit 1 "MetadataTask" in
  let new := @plain_task unit 2 "JarTask" in
  let self := with_tasks [metadata] Installer_init in
  (forall fuel, Installer_append_task (2 + fuel) new (Some (Class "AssetsTask")) self =
                 Some (with_tasks [metadata; metadata] self, Ok tt)) /\
  (forall fuel, Installer_prepend_task (2 + fuel) new (Some (Class "AssetsTask")) self =
                 Some (with_tasks [metadata; metadata] self, Ok tt)) /\
  (forall fuel, Installer_append_task fuel new (Some (Class "MetadataTask")) self = None) /\
  (forall fuel, Installer_prepend_task fuel new (Some (Class "MetadataTask")) self = None) /\
  (forall fuel http py_str, add_fabric_tasks http py_str fuel 2 self = None).
Proof.
  intros metadata new self.
  assert (Hset : Forall setup_returns (_tasks self)).
  { repeat constructor. apply plain_task_setup_returns. }
  assert (Hex : Exists (fun t => task_type t = Class "MetadataTask") (_tasks self)).
  { by constructor. }
  assert (Habs : Forall (fun t => task_type t <> Class "AssetsTask") (_tasks self)).
  { by repeat constructor. }
  split; [|split; [|split; [|split]]].
  - intros fuel. rewrite append_task_absent by (done || simpl; lia). reflexivity.
  - intros fuel. rewrite prepend_task_absent by (done || simpl; lia). reflexivity.
  - intros fuel. by apply append_task_present.
  - intros fuel. by apply prepend_task_present.
  - intros fuel http py_str. by apply prepend_task_present.
Qed.

(** C2 fails on the code: [install] calls [execute] with the state alone,
    so that the [execute(self, state, watcher)] of [FabricInitTask] raises
    [TypeError] before its body runs, and the [on_event] of the base class
    [Watcher] takes no event. *)
Theorem install_passes_the_state_only {W : Type}
    (http : string -> result json) (py_str : json -> string)
    (id : nat) (rest : list (@Task W)) (state : State) (watchers : gset positive)
    (ident : positive) (st : W) (ev : event) :
  let task := FabricInitTask http py_str id in
  let self := {| _tasks := task :: rest; _state := state; _watchers := watchers |} in
  let watcher := {| watcher_id := ident; on_event := Watcher_on_event; watcher_state := st |} in
  call_execute task state = (state, Err TypeError) /\
  Installer_install self = ((self, aborted_calls (elements watchers) task), Err TypeError) /\
  call_on_event ev watcher = (watcher, Err TypeError).
Proof. intros task self watcher. repeat split. Qed.

(** ** The Fabric init task *)

Section Fabric_properties.

Context {W : Type}.
Variable http : string -> result json.
Variable py_str : json -> string.

Implicit Types (state : State) (watcher : @Watcher W) (root : FabricRoot).

Lemma call_on_event_accepted watcher ev :
  accepts_events watcher -> call_on_event ev watcher = (notify watcher ev, Ok tt).
Proof.
  intros (body & Hbody & Hok). unfold notify, call_on_event. rewrite Hbody.
  specialize (Hok ev (watcher_state watcher)).
  destruct (body ev (watcher_state watcher)) as [st r]. simpl in *. by subst r.
Qed.

Lemma notify_accepts watcher ev : accepts_events watcher -> accepts_events (notify watcher ev).
Proof.
  intros (body & Hbody & Hok). exists body. split; [|done].
  unfold notify, call_on_event. rewrite Hbody.
  by destruct (body ev (watcher_state watcher)).
Qed.

(** The run of [execute] up to the registration, when the watcher takes
    the events and the resolution has an answer. *)
Lemma FabricInitTask_execute_resolved state watcher root loader_version :
  data state !! cls_FabricRoot = Some (VFabricRoot root) ->
  accepts_events watcher ->
  resolved http root = Ok loader_version ->
  let version_id := synthesized_id py_str root loader_version in
  let state1 := with_metadata_root py_str root loader_version state in
  let watcher1 := foldl notify watcher (resolve_events root loader_version) in
  FabricInitTask_execute http py_str (state, watcher) =
  match data state1 !! cls_VersionRepositories with
  | None => ((state1, watcher1), Err KeyError)
  | Some (VVersionRepositories repositories) =>
      ((State_mutated cls_VersionRepositories
          (VVersionRepositories
             (VersionRepositories_insert version_id
                (mkFabricRepository (root_api root) version_id
                   (root_vanilla_version root) loader_version)
                repositories)) state1, watcher1), Ok tt)
  | Some _ => ((state1, watcher1), Err AttributeError)
  end.
Proof.
  intros Hroot Hacc Hres version_id state1 watcher1.
  unfold FabricInitTask_execute, mbind, in_state, in_watcher, State_get.
  rewrite Hroot. unfold resolved in Hres. unfold watcher1, resolve_events.
  run. destruct (root_loader_version root) as [l|]; run.
  - injection Hres as <-. rewrite call_on_event_accepted by done. run.
    change (State_insert _ state) with state1.
    unfold State_getitem.
    destruct (data state1 !! cls_VersionRepositories) as [[]|]; reflexivity.
  - rewrite call_on_event_accepted by done. run. rewrite Hres. run.
    rewrite call_on_event_accepted by (by apply notify_accepts). run.
    change (State_insert _ state) with state1.
    unfold State_getitem.
    destruct (data state1 !! cls_VersionRepositories) as [[]|]; reflexivity.
Qed.

Lemma with_metadata_root_repositories state root loader_version :
  data (with_metadata_root py_str root loader_version state) !! cls_VersionRepositories =
  data state !! cls_VersionRepositories.
Proof. unfold with_metadata_root. by rewrite State_insert_lookup_ne. Qed.

(** With a root and no repositories, no path through [execute] returns. *)
Lemma FabricInitTask_execute_fails state watcher root :
  data state !! cls_FabricRoot = Some (VFabricRoot root) ->
  data state !! cls_VersionRepositories = None ->
  exists e, snd (FabricInitTask_execute http py_str (state, watcher)) = Err e.
Proof.
  intros Hroot Hrepos.
  assert (Hget : forall m, State_getitem (State_insert (VMetadataRoot m) state)
                   cls_VersionRepositories = Err KeyError).
  { intros m. unfold State_getitem.
    by rewrite State_insert_lookup_ne, Hrepos. }
  unfold FabricInitTask_execute, mbind, in_state, in_watcher, State_get.
  rewrite Hroot. run. destruct (root_loader_version root) as [l|]; run.
  - destruct (call_on_event _ watcher) as [w1 [e|[]]]; run; [by eexists|].
    rewrite Hget. by eexists.
  - destruct (call_on_event _ watcher) as [w1 [e|[]]]; run; [by eexists|].
    destruct (request_fabric_loader_version _ _ _) as [e|loader]; run; [by eexists|].
    destruct (call_on_event _ w1) as [w2 [e|[]]]; run; [by eexists|].
    rewrite Hget. by eexists.
Qed.

(** C7: without a [FabricRoot] in the state, [execute] returns at once:
    the state is the one it was given and the watcher has received
    nothing, whatever its class. *)
Theorem FabricInitTask_execute_without_root state watcher :
  data state !! cls_FabricRoot = None ->
  FabricInitTask_execute http py_str (state, watcher) = ((state, watcher), Ok tt).
Proof.
  intros Hroot.
  unfold FabricInitTask_execute, mbind, in_state, in_watcher, State_get.
  by rewrite Hroot.
Qed.

(** C8: with a [FabricRoot] of prefix [p] and version [v] in the state and
    a loader version resolved to [l], [execute] inserts the [MetadataRoot]
    of identifier [p-v-l] and registers a repository of that identifier
    under that identifier, given repositories to register it in and a
    watcher that takes the events; the rest of the state stays. *)
Theorem FabricInitTask_execute_registers state watcher root (l : string) repositories :
  data state !! cls_FabricRoot = Some (VFabricRoot root) ->
  data state !! cls_VersionRepositories = Some (VVersionRepositories repositories) ->
  accepts_events watcher ->
  resolved http root = Ok (JStr l) ->
  let id := root_prefix root +:+ "-" +:+ root_vanilla_version root +:+ "-" +:+ l in
  let repository :=
    mkFabricRepository (root_api root) id (root_vanilla_version root) (JStr l) in
  exists state',
    FabricInitTask_execute http py_str (state, watcher) =
      ((state', foldl notify watcher (resolve_events root (JStr l))), Ok tt) /\
    State_get state' cls_MetadataRoot = Ok (VMetadataRoot (mkMetadataRoot id)) /\
    State_getitem state' cls_VersionRepositories =
      Ok (VVersionRepositories (VersionRepositories_insert id repository repositories)) /\
    (forall ty, ty <> cls_MetadataRoot -> ty <> cls_VersionRepositories ->
                data state' !! ty = data state !! ty).
Proof.
  intros Hroot Hrepos Hacc Hres id repository.
  rewrite (FabricInitTask_execute_resolved _ _ _ _ Hroot Hacc Hres).
  rewrite with_metadata_root_repositories, Hrepos.
  eexists. split; [reflexivity|]. split; [|split].
  - unfold State_get, State_mutated, with_metadata_root, State_insert.
    cbn [data py_type].
    rewrite lookup_insert_ne by done. by rewrite lookup_insert_eq.
  - unfold State_getitem, State_mutated. cbn [data]. by rewrite lookup_insert_eq.
  - intros ty Hm Hr. unfold State_mutated, with_metadata_root. cbn [data].
    rewrite lookup_insert_ne by done. by rewrite State_insert_lookup_ne.
Qed.

(** C10: for a type without an instance the subscript raises [KeyError]
    where [get] returns [None]; and when that type is
    [VersionRepositories], [execute] with a root in the state does not
    return: it raises [KeyError] at the registration, the [MetadataRoot]
    already inserted, once the events are taken and the loader version is
    resolved. *)
Theorem State_getitem_requires_instance state ty :
  data state !! ty = None ->
  State_getitem state ty = Err KeyError /\
  State_get state ty = Ok VNone /\
  (ty = cls_VersionRepositories ->
   forall watcher root,
     data state !! cls_FabricRoot = Some (VFabricRoot root) ->
     (exists e, snd (FabricInitTask_execute http py_str (state, watcher)) = Err e) /\
     (forall loader_version,
        accepts_events watcher ->
        resolved http root = Ok loader_version ->
        FabricInitTask_execute http py_str (state, watcher) =
          ((with_metadata_root py_str root loader_version state,
            foldl notify watcher (resolve_events root loader_version)),
           Err KeyError))).
Proof.
  intros Hnone. split; [|split].
  - unfold State_getitem. by rewrite Hnone.
  - unfold State_get. by rewrite Hnone.
  - intros -> watcher root Hroot. split.
    + by apply (FabricInitTask_execute_fails _ _ root).
    + intros loader_version Hacc Hres.
      rewrite (FabricInitTask_execute_resolved _ _ _ _ Hroot Hacc Hres).
      by rewrite with_metadata_root_repositories, Hnone.
Qed.

End Fabric_properties.

Lemma recorder_accepts_events id seen : accepts_events (recorder id seen).
Proof. eexists. split; [reflexivity|]. intros ev st. reflexivity. Defined.

Lemma FabricInitTask_execute_without_root_witness :
  let http := fun _ : string => Err (Raised "URLError") in
  let state := State_insert (VVersionRepositories (mkVersionRepositories [])) State_init in
  data state !! cls_FabricRoot = None /\
  FabricInitTask_execute http (fun _ => "") (state, recorder 1 []) =
    ((state, recorder 1 []), Ok tt).
Proof.
  intros http state. split; [reflexivity|].
  apply (FabricInitTask_execute_without_root http (fun _ => "") state (recorder 1 [])).
  reflexivity.
Defined.

Lemma FabricInitTask_execute_registers_witness :
  let http := fun _ : string => Err (Raised "URLError") in
  let root := with_fabric "fabric" "1.20.1" (Some "0.14.21") in
  let state :=
    State_insert (VVersionRepositories (mkVersionRepositories []))
      (State_insert (VFabricRoot root) State_init) in
  data state !! cls_FabricRoot = Some (VFabricRoot root) /\
  data state !! cls_VersionRepositories =
    Some (VVersionRepositories (mkVersionRepositories [])) /\
  accepts_events (recorder 1 []) /\
  resolved http root = Ok (JStr "0.14.21") /\
  exists state',
    fst (fst (FabricInitTask_execute http (fun _ => "") (state, recorder 1 []))) = state' /\
    State_get state' cls_MetadataRoot =
      Ok (VMetadataRoot (mkMetadataRoot "fabric-1.20.1-0.14.21")).
Proof.
  intros http root state.
  split; [reflexivity|]. split; [reflexivity|].
  split; [apply recorder_accepts_events|]. split; [reflexivity|].
  destruct (FabricInitTask_execute_registers http (fun _ => "") state (recorder 1 []) root
              "0.14.21" (mkVersionRepositories [])
              eq_refl eq_refl (recorder_accepts_events 1 []) eq_refl)
    as (state' & Hrun & Hmeta & _).
  exists state'. split; [by rewrite Hrun | exact Hmeta].
Defined.

Lemma State_getitem_requires_instance_witness :
  let http := fun _ : string => Err (Raised "URLError") in
  let root := with_quilt "quilt" "1.20.1" (Some "0.20.0-beta.5") in
  let state := State_insert (VFabricRoot root) State_init in
  data state !! cls_VersionRepositories = None /\
  data state !! cls_FabricRoot = Some (VFabricRoot root) /\
  accepts_events (recorder 1 []) /\
  resolved http root = Ok (JStr "0.20.0-beta.5") /\
  State_getitem state cls_VersionRepositories = Err KeyError /\
  snd (FabricInitTask_execute http (fun _ => "") (state, recorder 1 [])) = Err KeyError.
Proof.
  intros http root state.
  split; [reflexivity|]. split; [reflexivity|].
  split; [apply recorder_accepts_events|]. split; [reflexivity|].
  destruct (State_getitem_requires_instance (W := list event) http (fun _ => "") state
              cls_VersionRepositories eq_refl) as (Hitem & _ & Hexec).
  split; [exact Hitem|].
  destruct (Hexec eq_refl (recorder 1 []) root eq_refl) as [_ Hkey].
  by rewrite (Hkey (JStr "0.20.0-beta.5") (recorder_accepts_events 1 []) eq_refl).
Defined.

(** ** More on the state *)

Section More_State_properties.

Implicit Types (s : State) (v w : value) (ty : pytype).

Lemma State_after_typed (ops : list State_op) : State_typed (State_after ops).
Proof.
  unfold State_after. induction ops as [|op ops IH] using rev_ind.
  - apply State_init_typed.
  - rewrite foldl_app. simpl. destruct op as [v|]; simpl.
    + by apply State_insert_typed.
    + apply State_init_typed.
Qed.

(** X1: [insert] touches the entry of the type of its value only: for any
    other type, [get], the subscript and [in] answer as before. *)
Theorem State_insert_other_type s v ty :
  py_type v <> ty ->
  State_get (State_insert v s) ty = State_get s ty /\
  State_getitem (State_insert v s) ty = State_getitem s ty /\
  State_contains (State_insert v s) ty = State_contains s ty.
Proof.
  intros Hne. unfold State_get, State_getitem, State_contains.
  by rewrite State_insert_lookup_ne.
Qed.

Lemma State_insert_other_type_witness :
  let v := VMetadataRoot (mkMetadataRoot "fabric-1.20.1-0.14.21") in
  let s := State_insert (VFabricRoot (with_fabric "fabric" "1.20.1" None)) State_init in
  py_type v <> cls_FabricRoot /\
  State_get (State_insert v s) cls_FabricRoot = State_get s cls_FabricRoot.
Proof.
  intros v s.
  assert (Hne : py_type v <> cls_FabricRoot) by discriminate.
  split; [exact Hne|].
  exact (proj1 (State_insert_other_type s v cls_FabricRoot Hne)).
Defined.

(** X2: [in], the subscript and [get] agree: where the subscript returns
    an instance, [in] is true and [get] returns the same instance; where it
    raises, the exception is [KeyError], [in] is false and [get] returns
    [None]. After [insert] the type of the value is in the state, after
    [clear] no type is. *)
Theorem State_contains_getitem_get s v ty :
  match State_getitem s ty with
  | inr u => State_contains s ty = true /\ State_get s ty = Ok u
  | inl e => e = KeyError /\ State_contains s ty = false /\ State_get s ty = Ok VNone
  end /\
  State_contains (State_insert v s) (py_type v) = true /\
  State_contains (State_clear s) ty = false /\
  State_getitem (State_clear s) ty = Err KeyError.
Proof.
  unfold State_getitem, State_contains, State_get. split; [|split; [|split]].
  - by destruct (data s !! ty) as [u|] eqn:Hu.
  - apply bool_decide_eq_true. rewrite State_insert_lookup. by eexists.
  - apply bool_decide_eq_false. simpl. rewrite lookup_empty. by intros [? ?].
  - simpl. by rewrite lookup_empty.
Qed.

(** X3: whatever sequence of [insert] and [clear] filled it, a state holds
    under a type an instance of that type and no second one. *)
Theorem State_after_one_instance_per_type (ops : list State_op) ty :
  match data (State_after ops) !! ty with
  | Some v => py_type v = ty /\ State_instances (State_after ops) ty = [v]
  | None => State_instances (State_after ops) ty = []
  end.
Proof.
  pose proof (State_after_typed ops) as Htyped.
  rewrite (State_instances_typed _ ty Htyped).
  destruct (data (State_after ops) !! ty) as [v|] eqn:Hv; [|done].
  split; [by apply Htyped | done].
Qed.

End More_State_properties.

(** ** More on the installer *)

Section More_Installer_properties.

Context {W : Type}.

Implicit Types (task t : @Task W) (tasks : list (@Task W)) (self : @Installer W).
Implicit Types (watcher : @Watcher W).

(** Where [insert_task] puts the task, and what else it does. *)
Lemma insert_task_position task (index : Z) self :
  let n := length (_tasks self) in
  let self' := fst (Installer_insert_task task index self) in
  exists k, k <= n /\
    _tasks self' = take k (_tasks self) ++ task :: drop k (_tasks self) /\
    length (_tasks self') = S n /\
    ((0 <= index <= Z.of_nat n)%Z -> k = Z.to_nat index) /\
    ((Z.of_nat n <= index)%Z -> _tasks self' = _tasks self ++ [task]) /\
    ((index <= - Z.of_nat n)%Z -> _tasks self' = task :: _tasks self) /\
    ((- Z.of_nat n <= index < 0)%Z -> k = Z.to_nat (index + Z.of_nat n)) /\
    (_state self', snd (Installer_insert_task task index self)) =
      setup task (_state self) /\
    _watchers self' = _watchers self.
Proof.
  intros n self'. subst self'. rewrite insert_task_tasks.
  unfold list_insert. fold n.
  set (k := Z.to_nat (if (index <? 0)%Z then Z.max 0 (index + Z.of_nat n)
                      else Z.min index (Z.of_nat n))).
  assert (Hk : k <= n) by (subst k; destruct (Z.ltb_spec index 0); lia).
  exists k. split; [done|]. split; [done|]. split.
  { rewrite length_app, length_take. simpl. rewrite length_drop. fold n. lia. }
  split. { intros Hi. subst k. destruct (Z.ltb_spec index 0); lia. }
  split.
  { intros Hi. assert (k = n) as ->
      by (subst k; destruct (Z.ltb_spec index 0); lia).
    subst n. by rewrite firstn_all, drop_all. }
  split.
  { intros Hi. assert (k = 0) as ->
      by (subst k; destruct (Z.ltb_spec index 0); lia).
    by rewrite take_0, drop_0. }
  split. { intros Hi. subst k. destruct (Z.ltb_spec index 0); lia. }
  unfold Installer_insert_task, on_state. simpl.
  by destruct (setup task (_state self)) as [state r].
Qed.

(** X4: for an index that [list.insert] takes, one that fits the signed
    64 bits of a [Py_ssize_t], [insert_task] puts the task at the index as
    [list.insert] reads it (an index past the end is the end, a negative
    index counts from the end, one before the start is the start), keeps
    the other tasks in their order, runs the [setup] of the task on the
    state, and leaves the watchers. *)
Theorem Installer_insert_task_position task (index : Z) self :
  (- 2 ^ 63 <= index < 2 ^ 63)%Z ->
  let n := length (_tasks self) in
  let self' := fst (Installer_insert_task task index self) in
  exists k, k <= n /\
    _tasks self' = take k (_tasks self) ++ task :: drop k (_tasks self) /\
    length (_tasks self') = S n /\
    ((0 <= index <= Z.of_nat n)%Z -> k = Z.to_nat index) /\
    ((Z.of_nat n <= index)%Z -> _tasks self' = _tasks self ++ [task]) /\
    ((index <= - Z.of_nat n)%Z -> _tasks self' = task :: _tasks self) /\
    ((- Z.of_nat n <= index < 0)%Z -> k = Z.to_nat (index + Z.of_nat n)) /\
    (_state self', snd (Installer_insert_task task index self)) =
      setup task (_state self) /\
    _watchers self' = _watchers self.
Proof. intros _. apply insert_task_position. Qed.

(** X5: without a type, [append_task] puts the task last and
    [prepend_task] first, and each runs its [setup]; with a type and an
    empty list they do the same. *)
Theorem append_prepend_plain fuel task self :
  (exists self' r,
     Installer_append_task fuel task None self = Some (self', r) /\
     _tasks self' = _tasks self ++ [task] /\
     (_state self', r) = setup task (_state self)) /\
  (exists self' r,
     Installer_prepend_task fuel task None self = Some (self', r) /\
     _tasks self' = task :: _tasks self /\
     (_state self', r) = setup task (_state self)) /\
  (_tasks self = [] -> forall ty,
     Installer_append_task (S fuel) task (Some ty) self =
       Installer_append_task fuel task None self /\
     Installer_prepend_task (S fuel) task (Some ty) self =
       Installer_prepend_task fuel task None self).
Proof.
  split; [|split].
  - destruct (insert_task_position task
                (Z.of_nat (length (_tasks self))) self)
      as (k & _ & _ & _ & _ & Hend & _ & _ & Hsetup & _).
    unfold Installer_append_task.
    destruct (Installer_insert_task task _ self) as [self' r].
    exists self', r. split; [done|]. split; [apply Hend; lia | done].
  - destruct (insert_task_position task 0 self)
      as (k & _ & Htasks & _ & Hpos & _ & _ & _ & Hsetup & _).
    unfold Installer_prepend_task.
    destruct (Installer_insert_task task _ self) as [self' r].
    exists self', r. split; [done|]. split; [|done].
    simpl in Htasks. rewrite Htasks, Hpos by lia. done.
  - intros Hnil ty. unfold Installer_append_task, Installer_prepend_task. simpl.
    rewrite Hnil. simpl. by rewrite Hnil.
Qed.

(** X6: with a type that no task of a list that is not empty has, both
    calls insert the last task of the list once more, at the end for
    [append_task] and at the start for [prepend_task], and not the task
    they were given. *)
Theorem insert_relative_type_absent fuel task ty self (final : @Task W) :
  last (_tasks self) = Some final ->
  Forall (fun t => task_type t <> ty) (_tasks self) ->
  length (_tasks self) < fuel ->
  exists self1 r1 self2 r2,
    Installer_append_task fuel task (Some ty) self = Some (self1, r1) /\
    _tasks self1 = _tasks self ++ [final] /\
    (_state self1, r1) = setup final (_state self) /\
    Installer_prepend_task fuel task (Some ty) self = Some (self2, r2) /\
    _tasks self2 = final :: _tasks self /\
    (_state self2, r2) = setup final (_state self).
Proof.
  intros Hlast Habs Hfuel.
  rewrite append_task_absent, prepend_task_absent by done. rewrite Hlast. simpl.
  destruct (insert_task_position final
              (Z.of_nat (length (_tasks self))) self)
    as (k & _ & _ & _ & _ & Hend & _ & _ & Hsetup & _).
  destruct (insert_task_position final 0 self)
    as (k' & _ & Htasks & _ & Hpos & _ & _ & _ & Hsetup' & _).
  destruct (Installer_insert_task final (Z.of_nat _) self) as [self1 r1].
  destruct (Installer_insert_task final 0 self) as [self2 r2].
  exists self1, r1, self2, r2. simpl in *.
  split; [done|]. split; [apply Hend; lia|]. split; [done|].
  split; [done|]. split; [|done].
  rewrite Htasks, Hpos by lia. done.
Qed.

(** X7: with a task of the type in the list and setups that return,
    neither call returns, whatever the list around that task and however
    long the loop is let run. *)
Theorem insert_relative_type_present fuel task ty self :
  Forall setup_returns (_tasks self) ->
  Exists (fun t => task_type t = ty) (_tasks self) ->
  Installer_append_task fuel task (Some ty) self = None /\
  Installer_prepend_task fuel task (Some ty) self = None.
Proof.
  intros Hset Hex. split.
  - by apply append_task_present.
  - by apply prepend_task_present.
Qed.

End More_Installer_properties.

Lemma Installer_insert_task_position_witness :
  let first := @plain_task unit 1 "MetadataTask" in
  let new := @plain_task unit 2 "JarTask" in
  let self := with_tasks [first] Installer_init in
  (- 2 ^ 63 <= 100 < 2 ^ 63)%Z /\
  (Z.of_nat (length (_tasks self)) <= 100)%Z /\
  _tasks (fst (Installer_insert_task new 100 self)) = [first; new].
Proof.
  intros first new self.
  assert (Hb : (- 2 ^ 63 <= 100 < 2 ^ 63)%Z) by lia.
  assert (Hi : (Z.of_nat (length (_tasks self)) <= 100)%Z) by (simpl; lia).
  split; [exact Hb|]. split; [exact Hi|].
  destruct (Installer_insert_task_position new 100 self Hb)
    as (k & _ & _ & _ & _ & Hend & _).
  exact (Hend Hi).
Defined.

Lemma append_prepend_plain_witness :
  let new := @plain_task unit 2 "JarTask" in
  _tasks (@Installer_init unit) = [] /\
  Installer_append_task 1 new (Some (Class "MetadataTask")) Installer_init =
    Some (with_tasks [new] Installer_init, Ok tt).
Proof.
  intros new. split; [reflexivity|].
  destruct (append_prepend_plain 0 new Installer_init) as (_ & _ & Hempty).
  destruct (Hempty eq_refl (Class "MetadataTask")) as [Happend _].
  rewrite Happend. reflexivity.
Defined.

Lemma insert_relative_type_absent_witness :
  let first := @plain_task unit 1 "MetadataTask" in
  let second := @plain_task unit 2 "JarTask" in
  let new := @plain_task unit 3 "FabricInitTask" in
  let self := with_tasks [first; second] Installer_init in
  last (_tasks self) = Some second /\
  Forall (fun t => task_type t <> Class "AssetsTask") (_tasks self) /\
  length (_tasks self) < 3 /\
  exists self1 r1,
    Installer_append_task 3 new (Some (Class "AssetsTask")) self = Some (self1, r1) /\
    _tasks self1 = [first; second; second].
Proof.
  intros first second new self.
  assert (Habs : Forall (fun t => task_type t <> Class "AssetsTask") (_tasks self))
    by (by repeat constructor).
  assert (Hfuel : length (_tasks self) < 3) by (simpl; lia).
  split; [reflexivity|]. split; [exact Habs|]. split; [exact Hfuel|].
  destruct (insert_relative_type_absent 3 new (Class "AssetsTask") self second
              eq_refl Habs Hfuel)
    as (self1 & r1 & _ & _ & Happ & Htasks & _).
  exists self1, r1. split; [exact Happ | exact Htasks].
Defined.

Lemma insert_relative_type_present_witness :
  let first := @plain_task unit 1 "JarTask" in
  let second := @plain_task unit 2 "MetadataTask" in
  let new := @plain_task unit 3 "FabricInitTask" in
  let self := with_tasks [first; second] Installer_init in
  Forall setup_returns (_tasks self) /\
  Exists (fun t => task_type t = Class "MetadataTask") (_tasks self) /\
  Installer_prepend_task 1000 new (Some (Class "MetadataTask")) self = None.
Proof.
  intros first second new self.
  assert (Hset : Forall setup_returns (_tasks self)).
  { repeat constructor; apply plain_task_setup_returns. }
  assert (Hex : Exists (fun t => task_type t = Class "MetadataTask") (_tasks self)).
  { apply Exists_cons_tl. by constructor. }
  split; [exact Hset|]. split; [exact Hex|].
  exact (proj2 (insert_relative_type_present 1000 new (Class "MetadataTask") self
                  Hset Hex)).
Defined.

(** ** The table of the set of watchers *)

Section Watcher_set.

Context {W : Type}.

Implicit Types (so : PySetObject) (key : positive) (keys : list positive).
Implicit Types (watcher : @Watcher W) (watchers : list (@Watcher W)).

(** A key that sits in its slot is found by the first probe. *)
Lemma set_add_entry_found fuel keys key :
  NoDup (slot <$> keys) -> key ∈ keys ->
  set_add_entry (S fuel) {| set_table := layout keys; set_fill := length keys |} key =
    Some {| set_table := layout keys; set_fill := length keys |}.
Proof.
  intros Hnd Hin. unfold set_add_entry. cbn [set_table set_fill].
  unfold set_mask. rewrite layout_length. change (Z.of_nat 8 - 1)%Z with 7%Z.
  cbn [set_add_entry_loop set_table set_fill]. unfold set_mask.
  rewrite layout_length. change (Z.of_nat 8 - 1)%Z with 7%Z.
  assert (Hprobes : probes 7 (Z.land (Z.pos key) 7) = 1).
  { unfold probes, LINEAR_PROBES.
    pose proof (Z.land_nonneg (Z.pos key) 7) as [_ Hnn].
    destruct (Z.leb_spec (Z.land (Z.pos key) 7 + 9) 7); [lia | done]. }
  rewrite Hprobes. cbn [scan]. fold (slot key).
  rewrite layout_lookup by apply slot_lt.
  rewrite (proj2 (head_filter_slot keys key Hnd) Hin).
  by rewrite decide_True.
Qed.

(** X8: [add_watcher] is an insertion into the table of the set. With up
    to four watchers attached, in slots of their own, adding one of them
    again leaves the set as it is, order included. Of two watchers whose
    hashes meet in a slot, as 1 and 9 do, the one that comes second goes to
    another slot, and here the two are iterated in the order in which they
    were added. *)
Theorem add_watcher_table fuel watchers watcher :
  (NoDup (slot <$> (watcher_id <$> watchers)) ->
   length watchers <= 4 ->
   watcher_id watcher ∈ watcher_id <$> watchers ->
   exists so,
     add_watchers (S fuel) watchers set_new = Some so /\
     add_watcher_in (S fuel) watcher so = Some so) /\
  (forall first second : @Watcher W,
     watcher_id first = 1%positive -> watcher_id second = 9%positive ->
     set_iter <$> add_watchers (2 + fuel) [first; second] set_new =
       Some [1; 9]%positive /\
     set_iter <$> add_watchers (2 + fuel) [second; first] set_new =
       Some [9; 1]%positive).
Proof.
  split.
  - intros Hnd Hlen Hin.
    pose proof (add_watchers_free fuel watchers []) as Hadd.
    rewrite app_nil_l in Hadd. rewrite length_fmap in Hadd.
    specialize (Hadd Hnd Hlen).
    eexists. split; [exact Hadd|]. unfold add_watcher_in.
    rewrite <- (length_fmap watcher_id watchers).
    by apply set_add_entry_found.
  - intros first second H1 H9. unfold add_watchers, add_watcher_in.
    rewrite H1, H9. split; reflexivity.
Qed.

End Watcher_set.

Lemma add_watcher_table_witness :
  let watchers := [base_watcher 11; base_watcher 4; base_watcher 17] in
  NoDup (slot <$> (watcher_id <$> watchers)) /\
  length watchers <= 4 /\
  watcher_id (base_watcher 4) ∈ watcher_id <$> watchers /\
  watcher_id (base_watcher 1) = 1%positive /\
  watcher_id (base_watcher 9) = 9%positive /\
  (exists so,
     add_watchers 1 watchers set_new = Some so /\
     add_watcher_in 1 (base_watcher 4) so = Some so) /\
  set_iter <$> add_watchers 2 [base_watcher 1; base_watcher 9] set_new =
    Some [1; 9]%positive.
Proof.
  intros watchers.
  assert (Hnd : NoDup (slot <$> (watcher_id <$> watchers))).
  { vm_compute. rewrite !NoDup_cons, !elem_of_cons, !elem_of_nil.
    repeat split; try lia. apply NoDup_nil_2. }
  assert (Hlen : length watchers <= 4) by (simpl; lia).
  assert (Hin : watcher_id (base_watcher 4) ∈ watcher_id <$> watchers).
  { simpl. right. left. }
  split; [exact Hnd|]. split; [exact Hlen|]. split; [exact Hin|].
  split; [reflexivity|]. split; [reflexivity|]. split.
  - exact (proj1 (add_watcher_table 0 watchers (base_watcher 4)) Hnd Hlen Hin).
  - exact (proj1 (proj2 (add_watcher_table 0 watchers (base_watcher 4))
                    (base_watcher 1) (base_watcher 9) eq_refl eq_refl)).
Defined.

(** ** Watchers, reset and runs *)

Set Warnings "-clear-no-such-hyp".

Section Watchers_reset_runs.

Context {W : Type}.

Implicit Types (task t : @Task W) (tasks : list (@Task W)) (self : @Installer W).
Implicit Types (watcher : @Watcher W) (state : State).

(** X9: [remove_watcher] of a watcher that is not attached raises
    [KeyError] and leaves the installer; after [add_watcher] it returns and
    gives back the set of before; a watcher removed is not attached any
    more, so that removing it again raises. *)
Theorem remove_watcher_member watcher self :
  watcher_id watcher ∉ _watchers self ->
  Installer_remove_watcher watcher self = (self, Err KeyError) /\
  exists self',
    Installer_remove_watcher watcher (Installer_add_watcher watcher self) = (self', Ok tt) /\
    _watchers self' = _watchers self /\
    _tasks self' = _tasks self /\ _state self' = _state self /\
    Installer_remove_watcher watcher self' = (self', Err KeyError).
Proof.
  intros Hout. unfold Installer_remove_watcher, Installer_add_watcher. simpl.
  rewrite decide_False by done. split; [done|].
  rewrite decide_True by set_solver. eexists. split; [reflexivity|]. simpl.
  assert (({[watcher_id watcher]} ∪ _watchers self) ∖ {[watcher_id watcher]}
          = _watchers self) as -> by set_solver.
  rewrite decide_False by done. done.
Qed.

Lemma setup_all_app tasks tasks' state :
  setup_all (tasks ++ tasks') state =
  match setup_all tasks state with
  | (state', inl e) => (state', inl e)
  | (state', inr _) => setup_all tasks' state'
  end.
Proof.
  revert state. induction tasks as [|t tasks IH]; intros state; [done|].
  simpl. unfold mbind. destruct (setup t state) as [state1 [e|[]]]; [done|]. apply IH.
Qed.

(** X10: [reset] starts from an empty state whatever the state was, runs
    the setups in list order up to the first that raises, whose exception
    it lets through with the later setups not run, and keeps the tasks and
    the watchers. *)
Theorem reset_from_empty self state :
  Installer_reset (with_state state self) = Installer_reset self /\
  (_state (fst (Installer_reset self)), snd (Installer_reset self)) =
    setup_all (_tasks self) State_init /\
  _tasks (fst (Installer_reset self)) = _tasks self /\
  _watchers (fst (Installer_reset self)) = _watchers self /\
  (forall before t after state1 state2 e,
     _tasks self = before ++ t :: after ->
     setup_all before State_init = (state1, Ok tt) ->
     setup t state1 = (state2, Err e) ->
     Installer_reset self = (with_state state2 self, Err e)).
Proof.
  unfold Installer_reset, on_state, State_clear. simpl.
  fold (@State_init).
  split; [by destruct (setup_all (_tasks self) State_init)|].
  split; [by destruct (setup_all (_tasks self) State_init)|].
  split; [by destruct (setup_all (_tasks self) State_init)|].
  split; [by destruct (setup_all (_tasks self) State_init)|].
  intros before t after state1 state2 e -> Hbefore Ht.
  rewrite setup_all_app, Hbefore. simpl. unfold mbind. by rewrite Ht.
Qed.

Lemma install_loop_app watchers tasks tasks' state (log : list (@call W)) :
  install_loop watchers (tasks ++ tasks') (state, log) =
  match install_loop watchers tasks (state, log) with
  | (store, inl e) => (store, inl e)
  | (store, inr _) => install_loop watchers tasks' store
  end.
Proof.
  revert state log. induction tasks as [|t tasks IH]; intros state log; [done|].
  simpl. destruct (call_execute t state) as [state1 [e|[]]]; [done|]. apply IH.
Qed.

(** X11: a run over two lists of tasks in a row is the run over the first
    and, when it returns, the run over the second from the state it left,
    the calls of the two one after the other; when the first raises, the
    second is not started. No run changes the tasks or the watchers. *)
Theorem install_of_two_lists tasks tasks' self :
  Installer_install (with_tasks (tasks ++ tasks') self) =
  match Installer_install (with_tasks tasks self) with
  | ((self1, log1), inl e) => ((with_tasks (tasks ++ tasks') self1, log1), inl e)
  | ((self1, log1), inr _) =>
      let '((self2, log2), r) := Installer_install (with_tasks tasks' self1) in
      ((with_tasks (tasks ++ tasks') self2, log1 ++ log2), r)
  end /\
  _tasks (fst (fst (Installer_install self))) = _tasks self /\
  _watchers (fst (fst (Installer_install self))) = _watchers self.
Proof.
  split.
  - unfold Installer_install. simpl. rewrite install_loop_app.
    destruct (install_loop (_watchers self) tasks (_state self, []))
      as [[state1 log1] [e|[]]]; [done|]. simpl.
    rewrite install_loop_log.
    by destruct (install_loop (_watchers self) tasks' (state1, []))
      as [[state2 log2] r].
  - unfold Installer_install.
    by destruct (install_loop (_watchers self) (_tasks self) (_state self, []))
      as [[state log] r].
Qed.

(** X12: a task that has the [execute] of the base class stops the run
    with [NotImplementedError]: the tasks before it have run, its begin
    hooks and its call are made, the state is the one it was called with. *)
Theorem install_base_execute before task after self state :
  execute task = Task_execute ->
  completes before (_state self) state ->
  Installer_install (with_tasks (before ++ task :: after) self) =
  ((with_tasks (before ++ task :: after) (with_state state self),
    concat (completed_calls (elements (_watchers self)) <$> before) ++
    aborted_calls (elements (_watchers self)) task),
   Err NotImplementedError).
Proof.
  intros Hexec Hbefore. unfold Installer_install. simpl.
  rewrite install_loop_app.
  assert (Hrun : install_loop (_watchers self) before (_state self, []) =
                 ((state, concat (completed_calls (elements (_watchers self)) <$> before)),
                  Ok tt)).
  { clear Hexec. generalize (_state self) as state0, Hbefore. clear Hbefore.
    induction before as [|t before IH]; intros state0 Hc.
    - by inversion Hc; subst.
    - inversion Hc as [|? ? ? state1 ? Hcall Hrest]; subst.
      rewrite install_loop_cons, Hcall. rewrite (IH _ Hrest).
      rewrite fmap_cons. done. }
  rewrite Hrun. rewrite install_loop_log, install_loop_cons.
  unfold call_execute. rewrite Hexec. reflexivity.
Qed.

End Watchers_reset_runs.

Lemma remove_watcher_member_witness :
  let watcher := base_watcher 1 in
  let self := Installer_add_watcher (base_watcher 2) Installer_init in
  (watcher_id watcher ∉ _watchers self) /\
  Installer_remove_watcher watcher self = (self, Err KeyError).
Proof.
  intros watcher self.
  assert (Hout : watcher_id watcher ∉ _watchers self) by (by vm_compute).
  split; [exact Hout|].
  exact (proj1 (remove_watcher_member watcher self Hout)).
Defined.

Lemma reset_from_empty_witness :
  let failing := {| task_id := 2; task_type := Class "JarTask";
                    setup := raise (Raised "TaskError");
                    execute := @Task_execute unit |} in
  let first := @plain_task unit 1 "MetadataTask" in
  let last := @plain_task unit 3 "AssetsTask" in
  let self := with_tasks [first; failing; last] Installer_init in
  Installer_reset self = (with_state State_init self, Err (Raised "TaskError")).
Proof.
  intros failing first last self.
  destruct (reset_from_empty self State_init) as (_ & _ & _ & _ & Hstop).
  exact (Hstop [first] failing [last] State_init State_init (Raised "TaskError")
           eq_refl eq_refl eq_refl).
Defined.

Lemma install_base_execute_witness :
  let first := @idle_task unit 1 "MetadataTask" in
  let second := @plain_task unit 2 "JarTask" in
  let self := Installer_add_watcher (base_watcher 1) Installer_init in
  execute second = Task_execute /\
  completes [first] (_state self) State_init /\
  snd (Installer_install (with_tasks ([first] ++ second :: []) self)) =
    Err NotImplementedError.
Proof.
  intros first second self.
  assert (Hc : completes [first] (_state self) State_init).
  { econstructor; [reflexivity | constructor]. }
  split; [reflexivity|]. split; [exact Hc|].
  by rewrite (install_base_execute [first] second [] self State_init eq_refl Hc).
Defined.

(** ** More on the Fabric tasks *)

Section More_Fabric_properties.

Context {W : Type}.
Variable http : string -> result json.
Variable py_str : json -> string.

Implicit Types (state : State) (watcher : @Watcher W) (root : FabricRoot).
Implicit Types (api : FabricApi).

(** X13: the loader version is read from the first entry of the answer at
    [<api_url>versions/loader/<version>]: it is the ["version"] of its
    ["loader"], [None] when the entry has no ["loader"] or the loader no
    ["version"]; an empty list raises [IndexError] and an exception of the
    request goes through. *)
Theorem request_fabric_loader_version_cases api (vanilla : string) :
  let url := api_url api +:+ "versions/loader/" +:+ vanilla in
  request_fabric_loader_version http api vanilla =
  match http url with
  | inl e => Err e
  | inr (JList []) => Err IndexError
  | inr (JList (JObj entry :: _)) =>
      match assoc "loader" entry with
      | None => Ok JNull
      | Some (JObj loader) => Ok (default JNull (assoc "version" loader))
      | Some _ => Err AttributeError
      end
  | inr answer =>
      match subscript0 answer with
      | inl e => Err e
      | inr _ => Err AttributeError
      end
  end.
Proof.
  intros url. unfold request_fabric_loader_version, request_fabric_meta. fold url.
  destruct (http url) as [e|answer]; [done|]. simpl.
  destruct answer as [| | |str|items|members]; try done.
  - by destruct str.
  - destruct items as [|first items]; [done|]. simpl.
    destruct first as [| | |str|items'|entry]; try done. simpl.
    destruct (assoc "loader" entry) as [loader|]; [|done]. simpl.
    by destruct loader.
Qed.

(** X14: with a loader version in the root, [execute] makes no request:
    its outcome is the same whatever the server would answer. *)
Theorem FabricInitTask_execute_needs_no_request
    (http' : string -> result json) state watcher root (l : string) :
  data state !! cls_FabricRoot = Some (VFabricRoot root) ->
  root_loader_version root = Some l ->
  FabricInitTask_execute http py_str (state, watcher) =
  FabricInitTask_execute http' py_str (state, watcher).
Proof.
  intros Hroot Hl.
  unfold FabricInitTask_execute, mbind, in_state, in_watcher, State_get.
  rewrite Hroot. run. by rewrite Hl.
Qed.

(** X15: without a loader version in the root, when the request fails the
    exception goes through [execute]: the watcher has been told of the
    resolution that starts and of nothing else, and the state is as it
    was, with no [MetadataRoot] inserted. *)
Theorem FabricInitTask_execute_request_fails state watcher root e :
  data state !! cls_FabricRoot = Some (VFabricRoot root) ->
  root_loader_version root = None ->
  accepts_events watcher ->
  request_fabric_loader_version http (root_api root) (root_vanilla_version root) = Err e ->
  FabricInitTask_execute http py_str (state, watcher) =
  ((state,
    notify watcher
      (FabricResolveEvent (root_api root) (root_vanilla_version root) JNull)),
   Err e).
Proof.
  intros Hroot Hl Hacc Hreq.
  unfold FabricInitTask_execute, mbind, in_state, in_watcher, State_get.
  rewrite Hroot. run. rewrite Hl. run.
  rewrite call_on_event_accepted by done. run. by rewrite Hreq.
Qed.

(** X16: a watcher of the base class cannot be told of the resolution:
    with a root in the state, [execute] raises [TypeError] at its first
    event, before any request and with the state as it was. *)
Theorem FabricInitTask_execute_base_watcher state (ident : positive) (st : W) root :
  data state !! cls_FabricRoot = Some (VFabricRoot root) ->
  let watcher :=
    {| watcher_id := ident; on_event := Watcher_on_event; watcher_state := st |} in
  FabricInitTask_execute http py_str (state, watcher) = ((state, watcher), Err TypeError).
Proof.
  intros Hroot watcher.
  unfold FabricInitTask_execute, mbind, in_state, in_watcher, State_get.
  rewrite Hroot. run. by destruct (root_loader_version root).
Qed.

(** X17: without a loader version in the root, [execute] uses the answer
    of the server: the watcher is told of the resolution that starts, then
    of the version found, and the identifier ends with that version as an
    f-string prints it, so with [None] when the answer has none. *)
Theorem FabricInitTask_execute_resolves state watcher root loader_version repositories :
  data state !! cls_FabricRoot = Some (VFabricRoot root) ->
  data state !! cls_VersionRepositories = Some (VVersionRepositories repositories) ->
  root_loader_version root = None ->
  accepts_events watcher ->
  request_fabric_loader_version http (root_api root) (root_vanilla_version root) =
    Ok loader_version ->
  let started := FabricResolveEvent (root_api root) (root_vanilla_version root) JNull in
  let found :=
    FabricResolveEvent (root_api root) (root_vanilla_version root) loader_version in
  let id :=
    root_prefix root +:+ "-" +:+ root_vanilla_version root +:+ "-" +:+
    match loader_version with
    | JStr l => l
    | JNull => "None"
    | other => format py_str other
    end in
  exists state',
    FabricInitTask_execute http py_str (state, watcher) =
      ((state', notify (notify watcher started) found), Ok tt) /\
    State_get state' cls_MetadataRoot = Ok (VMetadataRoot (mkMetadataRoot id)) /\
    exists registered,
      State_getitem state' cls_VersionRepositories = Ok (VVersionRepositories registered) /\
      head (registrations registered) =
        Some (id, mkFabricRepository (root_api root) id (root_vanilla_version root)
                    loader_version).
Proof.
  intros Hroot Hrepos Hl Hacc Hreq started found id.
  assert (Hres : resolved http root = Ok loader_version)
    by (unfold resolved; by rewrite Hl).
  rewrite (FabricInitTask_execute_resolved _ _ _ _ _ _ Hroot Hacc Hres).
  rewrite with_metadata_root_repositories, Hrepos.
  assert (Hid : synthesized_id py_str root loader_version = id).
  { unfold synthesized_id, id. by destruct loader_version. }
  rewrite Hid. unfold resolve_events. rewrite Hl. simpl.
  eexists. split; [reflexivity|]. split.
  - unfold State_get, State_mutated, with_metadata_root, State_insert.
    cbn [data py_type]. rewrite lookup_insert_ne by done.
    by rewrite lookup_insert_eq, Hid.
  - eexists. split.
    + unfold State_getitem, State_mutated. cbn [data]. by rewrite lookup_insert_eq.
    + reflexivity.
Qed.

End More_Fabric_properties.

Lemma FabricInitTask_execute_needs_no_request_witness :
  let root := with_fabric "fabric" "1.20.1" (Some "0.14.21") in
  let state := State_insert (VFabricRoot root) State_init in
  let offline := fun _ : string => Err (Raised "URLError") in
  let online := fun _ : string => Ok (JList []) in
  data state !! cls_FabricRoot = Some (VFabricRoot root) /\
  root_loader_version root = Some "0.14.21" /\
  FabricInitTask_execute offline (fun _ => "") (state, recorder 1 []) =
  FabricInitTask_execute online (fun _ => "") (state, recorder 1 []).
Proof.
  intros root state offline online.
  split; [reflexivity|]. split; [reflexivity|].
  exact (FabricInitTask_execute_needs_no_request offline (fun _ => "") online
           state (recorder 1 []) root "0.14.21" eq_refl eq_refl).
Defined.

Lemma FabricInitTask_execute_request_fails_witness :
  let root := with_quilt "quilt" "1.20.1" None in
  let state := State_insert (VFabricRoot root) State_init in
  let offline := fun _ : string => Err (Raised "URLError") in
  data state !! cls_FabricRoot = Some (VFabricRoot root) /\
  root_loader_version root = None /\
  accepts_events (recorder 1 []) /\
  request_fabric_loader_version offline (root_api root) (root_vanilla_version root) =
    Err (Raised "URLError") /\
  FabricInitTask_execute offline (fun _ => "") (state, recorder 1 []) =
  ((state, recorder 1 [FabricResolveEvent QUILT_API "1.20.1" JNull]),
   Err (Raised "URLError")).
Proof.
  intros root state offline.
  split; [reflexivity|]. split; [reflexivity|].
  split; [apply recorder_accepts_events|]. split; [reflexivity|].
  exact (FabricInitTask_execute_request_fails offline (fun _ => "") state
           (recorder 1 []) root (Raised "URLError")
           eq_refl eq_refl (recorder_accepts_events 1 []) eq_refl).
Defined.

Lemma FabricInitTask_execute_base_watcher_witness :
  let root := with_fabric "fabric" "1.20.1" (Some "0.14.21") in
  let state := State_insert (VFabricRoot root) State_init in
  data state !! cls_FabricRoot = Some (VFabricRoot root) /\
  FabricInitTask_execute (fun _ => Ok (JList [])) (fun _ => "") (state, base_watcher 1) =
  ((state, base_watcher 1), Err TypeError).
Proof.
  intros root state. split; [reflexivity|].
  exact (FabricInitTask_execute_base_watcher (fun _ => Ok (JList [])) (fun _ => "")
           state 1%positive tt root eq_refl).
Defined.

Lemma FabricInitTask_execute_resolves_witness :
  let root := with_fabric "fabric" "1.20.1" None in
  let state :=
    State_insert (VVersionRepositories (mkVersionRepositories []))
      (State_insert (VFabricRoot root) State_init) in
  let server := fun url : string =>
    if String.eqb url "https://meta.fabricmc.net/v2/versions/loader/1.20.1"
    then Ok (JList [JObj [("loader", JObj [("version", JStr "0.14.21")])]])
    else Err (Raised "HTTPError") in
  data state !! cls_FabricRoot = Some (VFabricRoot root) /\
  data state !! cls_VersionRepositories =
    Some (VVersionRepositories (mkVersionRepositories [])) /\
  root_loader_version root = None /\
  accepts_events (recorder 1 []) /\
  request_fabric_loader_version server (root_api root) (root_vanilla_version root) =
    Ok (JStr "0.14.21") /\
  exists state',
    fst (fst (FabricInitTask_execute server (fun _ => "") (state, recorder 1 []))) = state' /\
    State_get state' cls_MetadataRoot =
      Ok (VMetadataRoot (mkMetadataRoot "fabric-1.20.1-0.14.21")).
Proof.
  intros root state server.
  split; [reflexivity|]. split; [reflexivity|]. split; [reflexivity|].
  split; [apply recorder_accepts_events|]. split; [reflexivity|].
  destruct (FabricInitTask_execute_resolves server (fun _ => "") state (recorder 1 [])
              root (JStr "0.14.21") (mkVersionRepositories [])
              eq_refl eq_refl eq_refl (recorder_accepts_events 1 []) eq_refl)
    as (state' & Hrun & Hmeta & _).
  exists state'. split; [by rewrite Hrun | exact Hmeta].
Defined.

(** ** The repository of a Fabric version *)

Section FabricRepository_properties.

Variable http : string -> result json.
Variable py_str : json -> string.

Implicit Types (self : FabricRepository) (version : Version).

Lemma assoc_assoc_set {A} (k key : string) (v : A) (l : list (string * A)) :
  assoc k (assoc_set key v l) = if String.eqb k key then Some v else assoc k l.
Proof.
  induction l as [|[k' u] l IH]; simpl.
  - by destruct (String.eqb k key).
  - destruct (String.eqb_spec key k') as [->|Hkey]; simpl.
    + by destruct (String.eqb k k').
    + rewrite IH. destruct (String.eqb_spec k k') as [->|Hk]; [|done].
      destruct (String.eqb_spec k' key) as [->|]; [done | done].
Qed.

Lemma fetch_version_meta_url self :
  request_version_loader_profile http (repo_api self) (repo_vanilla_version self)
    (format py_str (repo_loader_version self)) = http (profile_url py_str self).
Proof.
  reflexivity.
Qed.

(** X19: [validate_version_meta] never answers [False]: it returns [True]
    for a version of the identifier of the repository and raises
    [AssertionError] for any other. *)
Theorem validate_version_meta_true_or_raises self version :
  match validate_version_meta self version with
  | inr b => b = true /\ Version_id version = version_id self
  | inl e => e = Raised "AssertionError" /\ Version_id version <> version_id self
  end.
Proof.
  unfold validate_version_meta.
  by destruct (String.eqb_spec (Version_id version) (version_id self)).
Qed.

(** X20: when the server answers the profile with an object,
    [fetch_version_meta] makes it the metadata of the version with ["id"]
    set to the identifier of the repository, whatever ["id"] the answer
    had, the other members as answered, and writes that document once. *)
Theorem fetch_version_meta_sets_id self version members :
  http (profile_url py_str self) = Ok (JObj members) ->
  exists document,
    fetch_version_meta http py_str self version =
      ({| Version_id := Version_id version; metadata := JObj document;
          written := written version ++ [JObj document] |}, Ok tt) /\
    assoc "id" document = Some (JStr (version_id self)) /\
    (forall key, key <> "id" -> assoc key document = assoc key members) /\
    length document =
      length members + match assoc "id" members with Some _ => 0 | None => 1 end.
Proof.
  intros Hanswer. unfold fetch_version_meta.
  rewrite fetch_version_meta_url, Hanswer. simpl.
  exists (assoc_set "id" (JStr (version_id self)) members).
  split; [done|]. split; [|split].
  - by rewrite assoc_assoc_set.
  - intros key Hkey. rewrite assoc_assoc_set.
    by destruct (String.eqb_spec key "id").
  - clear Hanswer. induction members as [|[k u] members IH]; [done|].
    cbn [assoc assoc_set]. destruct (String.eqb "id" k); cbn [length]; [lia|].
    rewrite IH. by destruct (assoc "id" members).
Qed.

(** X21: when the request raises, [fetch_version_meta] lets the exception
    through with the version as it was; when the answer is not an object,
    it raises [TypeError] with the answer already in the metadata of the
    version, and writes nothing. *)
Theorem fetch_version_meta_failures self version :
  (forall e, http (profile_url py_str self) = Err e ->
     fetch_version_meta http py_str self version = (version, Err e)) /\
  (forall answer,
     http (profile_url py_str self) = Ok answer ->
     (forall members, answer <> JObj members) ->
     fetch_version_meta http py_str self version =
       ({| Version_id := Version_id version; metadata := answer;
           written := written version |}, Err TypeError)).
Proof.
  unfold fetch_version_meta. rewrite fetch_version_meta_url. split.
  - intros e ->. done.
  - intros answer -> Hnot. simpl.
    destruct answer as [| | | | |members]; try done.
    by destruct (Hnot members).
Qed.

(** X22: the repository that [execute] registers answers for the version
    that [execute] announces: the key of the registration, the identifier
    of the repository and the identifier of the [MetadataRoot] are one
    string; the repository validates a version of that identifier, and
    the metadata it fetches for it carry that identifier. *)
Theorem registered_repository_serves_the_root {W : Type}
    (state : State) (watcher : @Watcher W) root loader_version repositories :
  data state !! cls_FabricRoot = Some (VFabricRoot root) ->
  data state !! cls_VersionRepositories = Some (VVersionRepositories repositories) ->
  accepts_events watcher ->
  resolved http root = Ok loader_version ->
  exists state' watcher' id repository,
    FabricInitTask_execute http py_str (state, watcher) = ((state', watcher'), Ok tt) /\
    State_get state' cls_MetadataRoot = Ok (VMetadataRoot (mkMetadataRoot id)) /\
    State_getitem state' cls_VersionRepositories =
      Ok (VVersionRepositories
            {| registrations := (id, repository) :: registrations repositories |}) /\
    version_id repository = id /\
    (forall document files,
       validate_version_meta repository (mkVersion id document files) = Ok true) /\
    (forall version members,
       http (profile_url py_str repository) = Ok (JObj members) ->
       dict_get (metadata (fst (fetch_version_meta http py_str repository version)))
         "id" JNull = Ok (JStr id)).
Proof.
  intros Hroot Hrepos Hacc Hres.
  rewrite (FabricInitTask_execute_resolved _ _ _ _ _ _ Hroot Hacc Hres).
  rewrite with_metadata_root_repositories, Hrepos.
  do 4 eexists. split; [reflexivity|]. split; [|split; [|split; [|split]]].
  - unfold State_get, State_mutated, with_metadata_root, State_insert.
    cbn [data py_type]. rewrite lookup_insert_ne by done.
    by rewrite lookup_insert_eq.
  - unfold State_getitem, State_mutated. cbn [data]. by rewrite lookup_insert_eq.
  - reflexivity.
  - intros document files. unfold validate_version_meta. simpl.
    by rewrite String.eqb_refl.
  - intros version members Hanswer.
    destruct (fetch_version_meta_sets_id _ version members Hanswer)
      as (document & -> & Hid & _).
    simpl. by rewrite Hid.
Qed.

End FabricRepository_properties.

Lemma fetch_version_meta_sets_id_witness :
  let self := mkFabricRepository FABRIC_API "fabric-1.20.1-0.14.21" "1.20.1" (JStr "0.14.21") in
  let answer := [("id", JStr "fabric-loader-0.14.21-1.20.1"); ("inheritsFrom", JStr "1.20.1")] in
  let server := fun url : string =>
    if String.eqb url "https://meta.fabricmc.net/v2/versions/loader/1.20.1/0.14.21/profile/json"
    then Ok (JObj answer) else Err (Raised "HTTPError") in
  let version := mkVersion "fabric-1.20.1-0.14.21" JNull [] in
  server (profile_url (fun _ => "") self) = Ok (JObj answer) /\
  exists document,
    metadata (fst (fetch_version_meta server (fun _ => "") self version)) = JObj document /\
    assoc "id" document = Some (JStr "fabric-1.20.1-0.14.21").
Proof.
  intros self answer server version. split; [reflexivity|].
  destruct (fetch_version_meta_sets_id server (fun _ => "") self version answer eq_refl)
    as (document & Hrun & Hid & _).
  exists document. split; [by rewrite Hrun | exact Hid].
Defined.

Lemma fetch_version_meta_failures_witness :
  let self := mkFabricRepository QUILT_API "quilt-1.20.1-0.20.0" "1.20.1" (JStr "0.20.0") in
  let offline := fun _ : string => Err (Raised "URLError") in
  let version := mkVersion "quilt-1.20.1-0.20.0" JNull [] in
  offline (profile_url (fun _ => "") self) = Err (Raised "URLError") /\
  fetch_version_meta offline (fun _ => "") self version = (version, Err (Raised "URLError")).
Proof.
  intros self offline version. split; [reflexivity|].
  exact (proj1 (fetch_version_meta_failures offline (fun _ => "") self version)
           (Raised "URLError") eq_refl).
Defined.

Lemma registered_repository_serves_the_root_witness :
  let offline := fun _ : string => Err (Raised "URLError") in
  let root := with_fabric "fabric" "1.20.1" (Some "0.14.21") in
  let state :=
    State_insert (VVersionRepositories (mkVersionRepositories []))
      (State_insert (VFabricRoot root) State_init) in
  data state !! cls_FabricRoot = Some (VFabricRoot root) /\
  data state !! cls_VersionRepositories =
    Some (VVersionRepositories (mkVersionRepositories [])) /\
  accepts_events (recorder 1 []) /\
  resolved offline root = Ok (JStr "0.14.21") /\
  exists state' id repository,
    State_get state' cls_MetadataRoot = Ok (VMetadataRoot (mkMetadataRoot id)) /\
    State_getitem state' cls_VersionRepositories =
      Ok (VVersionRepositories {| registrations := [(id, repository)] |}) /\
    version_id repository = id.
Proof.
  intros offline root state.
  split; [reflexivity|]. split; [reflexivity|].
  split; [apply recorder_accepts_events|]. split; [reflexivity|].
  destruct (registered_repository_serves_the_root offline (fun _ => "") state
              (recorder 1 []) root (JStr "0.14.21") (mkVersionRepositories [])
              eq_refl eq_refl (recorder_accepts_events 1 []) eq_refl)
    as (state' & watcher' & id & repository & _ & Hmeta & Hrepos & Hid & _).
  exists state', id, repository. split; [exact Hmeta|]. split; [exact Hrepos | exact Hid].
Defined.

(** ** The download watcher *)

Import cli.
Import cli_start.

Section DownloadWatcher_properties.

Variable num : Type.
Variable num_add : num -> num -> num.
Variable num_of_Z : Z -> num.
Variable float_zero : num.
Variable format_number : num -> string.

Local Abbreviation on_event := (DownloadWatcher_on_event num num_add num_of_Z float_zero format_number).
Local Abbreviation on_events := (cli.on_events num num_add num_of_Z float_zero format_number).
Local Abbreviation latest_speed := (cli.latest_speed num float_zero).
Local Abbreviation sum := (cli.sum num num_add num_of_Z).
Local Abbreviation progress_report := (cli.progress_report num num_of_Z format_number).

Implicit Types (self : DownloadWatcher num) (e : DownloadProgressEvent num).
Implicit Types (events : list (DownloadProgressEvent num)) (start : DownloadStartEvent).

Lemma on_events_app (l1 l2 : list (download_event num)) self :
  on_events (l1 ++ l2) self =
  match on_events l1 self with
  | (self', inl exc) => (self', inl exc)
  | (self', inr _) => on_events l2 self'
  end.
Proof.
  revert self. induction l1 as [|ev l1 IH]; intros self; [done|].
  simpl. unfold mbind. destruct (on_event ev self) as [self1 [exc|[]]]; [done|].
  apply IH.
Qed.

Lemma received_snoc events e : received num (events ++ [e]) = (received num events + progress_size e)%Z.
Proof. unfold received. by rewrite fmap_app, foldl_app. Qed.

Lemma latest_speed_snoc events e (i : Z) :
  latest_speed (events ++ [e]) i =
  if decide (thread_id e = i) then speed e else latest_speed events i.
Proof.
  unfold cli.latest_speed. rewrite filter_app, filter_cons, filter_nil.
  case_decide.
  - rewrite fmap_app. cbn [fmap list_fmap]. by rewrite last_snoc.
  - by rewrite app_nil_r.
Qed.

(** Writing the speed of a worker in its slot gives the latest speeds
    again. *)
Lemma speeds_snoc start events e :
  (0 <= thread_id e < threads_count start)%Z ->
  <[Z.to_nat (thread_id e) := speed e]> (latest_speed events <$> workers start) =
  latest_speed (events ++ [e]) <$> workers start.
Proof.
  intros Hid. unfold workers. apply list_eq. intros j.
  destruct (decide (j = Z.to_nat (thread_id e))) as [->|Hj].
  - rewrite list_lookup_insert_eq
      by (rewrite !length_fmap, length_seq; lia).
    rewrite !list_lookup_fmap, lookup_seq_lt by lia. simpl.
    rewrite latest_speed_snoc, decide_True by lia. done.
  - rewrite list_lookup_insert_ne by done.
    rewrite !list_lookup_fmap.
    destruct (seq 0 (Z.to_nat (threads_count start)) !! j) as [k|] eqn:Hk; [|done].
    apply lookup_seq in Hk as [-> _]. simpl.
    rewrite latest_speed_snoc, decide_False by lia. done.
Qed.

(** After the start event and progress events of the announced workers,
    the watcher holds the latest speed of each worker and the bytes
    received. *)
Lemma on_events_progress self start events :
  Forall (fun e => (0 <= thread_id e < threads_count start)%Z) events ->
  exists printed,
    on_events (Start start :: (Progress <$> events)) self =
    ({| out := printed;
        attrs := Some {| entries_count := start_entries_count start;
                         total_size := start_size start;
                         size := received num events;
                         speeds := latest_speed events <$> workers start |} |}, Ok tt).
Proof.
  induction events as [|e events IH] using rev_ind; intros Hids.
  - eexists. simpl. unfold mbind, ret. simpl. repeat f_equal.
    unfold workers. generalize (Z.to_nat (threads_count start)) as n, 0.
    induction n as [|n IHn]; intros k; [done|]. simpl. by rewrite <- IHn.
  - apply Forall_app in Hids as [Hids He]. inversion He as [|? ? Hid _]; subst.
    destruct (IH Hids) as [printed Hrun].
    rewrite fmap_app, app_comm_cons, on_events_app, Hrun.
    eexists. simpl. unfold mbind, ret. simpl.
    unfold list_setitem. rewrite length_fmap. unfold workers at 1.
    rewrite length_fmap, length_seq.
    assert ((0 <=? thread_id e)%Z && (thread_id e <? Z.of_nat (Z.to_nat (threads_count start)))%Z
            = true) as ->.
    { apply andb_true_iff. split; [apply Z.leb_le | apply Z.ltb_lt]; lia. }
    rewrite speeds_snoc by done. by rewrite received_snoc.
Qed.

(** C9: after a start event that announces the workers, at every progress
    event of one of them the watcher prints the sum, over the announced
    workers, of the speed each reported last ([0.0] before its first
    report), and the sum of the sizes of all the progress events so far. *)
Theorem DownloadWatcher_reports_sums self start events e :
  Forall (fun e => (0 <= thread_id e < threads_count start)%Z) (events ++ [e]) ->
  exists self',
    on_events (Start start :: (Progress <$> events ++ [e])) self = (self', Ok tt) /\
    last (out self') =
      Some (progress_report
              (sum (latest_speed (events ++ [e]) <$> workers start))
              (count e) (start_entries_count start)
              (received num (events ++ [e]))).
Proof.
  intros Hids. apply Forall_app in Hids as [Hids He].
  inversion He as [|? ? Hid _]; subst.
  destruct (on_events_progress self start events Hids) as [printed Hrun].
  rewrite fmap_app, app_comm_cons, on_events_app, Hrun.
  eexists. simpl. unfold mbind, ret. simpl.
  unfold list_setitem. rewrite length_fmap. unfold workers at 1.
  rewrite length_fmap, length_seq.
  assert ((0 <=? thread_id e)%Z && (thread_id e <? Z.of_nat (Z.to_nat (threads_count start)))%Z
          = true) as ->.
  { apply andb_true_iff. split; [apply Z.leb_le | apply Z.ltb_lt]; lia. }
  split; [reflexivity|]. simpl.
  by rewrite last_snoc, speeds_snoc, received_snoc.
Qed.

End DownloadWatcher_properties.

Lemma DownloadWatcher_reports_sums_witness :
  let format_number := fun n : Z => if decide (n = 11%Z) then "11" else "60" in
  let start := mkDownloadStartEvent 3 60 2 in
  let events :=
    [mkDownloadProgressEvent Z 0 10 0 5%Z; mkDownloadProgressEvent Z 1 20 1 7%Z] in
  let e := mkDownloadProgressEvent Z 0 30 2 4%Z in
  Forall (fun e => (0 <= thread_id e < threads_count start)%Z) (events ++ [e]) /\
  exists self',
    on_events Z Z.add id 0%Z format_number
      (Start start :: (Progress <$> events ++ [e])) (DownloadWatcher_init Z) = (self', Ok tt) /\
    last (out self') =
      Some (out_task ".." (Some "download.progress")
              [("speed", KStr "11o/s"); ("count", KInt 2);
               ("total_count", KInt 3); ("size", KStr "60o")]).
Proof.
  intros format_number start events e.
  assert (Hids : Forall (fun e => (0 <= thread_id e < threads_count start)%Z) (events ++ [e])).
  { repeat constructor; simpl; lia. }
  split; [exact Hids|].
  exact (DownloadWatcher_reports_sums Z Z.add id 0%Z format_number
           (DownloadWatcher_init Z) start events e Hids).
Defined.

(** ** More on the download watcher *)

Section More_DownloadWatcher_properties.

Variable num : Type.
Variable num_add : num -> num -> num.
Variable num_of_Z : Z -> num.
Variable float_zero : num.
Variable format_number : num -> string.

Local Abbreviation on_event := (DownloadWatcher_on_event num num_add num_of_Z float_zero format_number).
Local Abbreviation on_events := (cli.on_events num num_add num_of_Z float_zero format_number).
Local Abbreviation latest_speed := (cli.latest_speed num float_zero).
Local Abbreviation sum := (cli.sum num num_add num_of_Z).
Local Abbreviation progress_report := (cli.progress_report num num_of_Z format_number).

Implicit Types (self : DownloadWatcher num) (e : DownloadProgressEvent num).
Implicit Types (events : list (DownloadProgressEvent num)) (start : DownloadStartEvent).

(** X23: a progress event before any start event raises
    [AttributeError], and one whose [thread_id] is outside the speeds of
    the announced workers raises [IndexError]; in both cases the watcher
    prints nothing and keeps its size and speeds. *)
Theorem DownloadWatcher_progress_raises self e :
  (attrs self = None -> on_event (Progress e) self = (self, Err AttributeError)) /\
  (forall a,
     attrs self = Some a ->
     (thread_id e < - Z.of_nat (length (speeds a)) \/
      Z.of_nat (length (speeds a)) <= thread_id e)%Z ->
     on_event (Progress e) self = (self, Err IndexError)).
Proof.
  split.
  - intros Hnone. simpl. by rewrite Hnone.
  - intros a Ha Hid. simpl. rewrite Ha. unfold list_setitem.
    assert ((0 <=? thread_id e)%Z && (thread_id e <? Z.of_nat (length (speeds a)))%Z
            = false) as ->.
    { apply andb_false_iff. destruct Hid; [left; apply Z.leb_gt | right; apply Z.ltb_ge]; lia. }
    assert ((- Z.of_nat (length (speeds a)) <=? thread_id e)%Z && (thread_id e <? 0)%Z
            = false) as ->.
    { apply andb_false_iff. destruct Hid; [left; apply Z.leb_gt | right; apply Z.ltb_ge]; lia. }
    done.
Qed.

(** X24: a negative [thread_id] counts the workers from the last, as a
    negative index does: the event is handled as the event of worker
    [thread_id + W]. *)
Theorem DownloadWatcher_negative_thread_id self e a :
  attrs self = Some a ->
  (- Z.of_nat (length (speeds a)) <= thread_id e < 0)%Z ->
  DownloadWatcher_on_event num num_add num_of_Z float_zero format_number
    (Progress e) self =
  DownloadWatcher_on_event num num_add num_of_Z float_zero format_number
    (Progress (mkDownloadProgressEvent num
                 (thread_id e + Z.of_nat (length (speeds a)))
                 (progress_size e) (count e) (speed e))) self.
Proof.
  intros Ha Hid. simpl. rewrite Ha. unfold list_setitem. simpl.
  assert ((0 <=? thread_id e)%Z && (thread_id e <? Z.of_nat (length (speeds a)))%Z
          = false) as ->.
  { apply andb_false_iff. left. apply Z.leb_gt. lia. }
  assert ((- Z.of_nat (length (speeds a)) <=? thread_id e)%Z && (thread_id e <? 0)%Z
          = true) as ->.
  { apply andb_true_iff. split; [apply Z.leb_le | apply Z.ltb_lt]; lia. }
  assert ((0 <=? thread_id e + Z.of_nat (length (speeds a)))%Z &&
          (thread_id e + Z.of_nat (length (speeds a)) <? Z.of_nat (length (speeds a)))%Z
          = true) as ->.
  { apply andb_true_iff. split; [apply Z.leb_le | apply Z.ltb_lt]; lia. }
  done.
Qed.

(** X25: a start event starts the count again: whatever the watcher has
    received before, the report at a progress event after it sums the
    speeds and the sizes of the progress events since that start only. *)
Theorem DownloadWatcher_restart (history : list (download_event num)) self self1 start events e :
  on_events history self = (self1, Ok tt) ->
  Forall (fun e => (0 <= thread_id e < threads_count start)%Z) (events ++ [e]) ->
  exists self',
    on_events (history ++ Start start :: (Progress <$> events ++ [e])) self = (self', Ok tt) /\
    last (out self') =
      Some (progress_report
              (sum (latest_speed (events ++ [e]) <$> workers start))
              (count e) (start_entries_count start)
              (received num (events ++ [e]))).
Proof.
  intros Hhistory Hids. rewrite on_events_app, Hhistory.
  apply Forall_app in Hids as [Hids He].
  inversion He as [|? ? Hid _]; subst.
  destruct (on_events_progress num num_add num_of_Z float_zero format_number
              self1 start events Hids) as [printed Hrun].
  rewrite fmap_app, app_comm_cons, on_events_app, Hrun.
  eexists. simpl. unfold mbind, ret. simpl.
  unfold list_setitem. rewrite length_fmap. unfold workers at 1.
  rewrite length_fmap, length_seq.
  assert ((0 <=? thread_id e)%Z && (thread_id e <? Z.of_nat (Z.to_nat (threads_count start)))%Z
          = true) as ->.
  { apply andb_true_iff. split; [apply Z.leb_le | apply Z.ltb_lt]; lia. }
  split; [reflexivity|]. simpl.
  by rewrite last_snoc, speeds_snoc, received_snoc.
Qed.

(** X26: the watcher only adds to the output: after any events, what was
    printed before is still there, followed by at most one call for a
    start or a progress event and two for a complete event, and by exactly
    that many when no event raised. *)
Theorem DownloadWatcher_output_grows (history : list (download_event num)) self :
  exists printed,
    out (fst (on_events history self)) = out self ++ printed /\
    length printed <= sum_list (printed_calls <$> history) /\
    match snd (on_events history self) with
    | inr _ => length printed = sum_list (printed_calls <$> history)
    | inl _ => True
    end.
Proof.
  revert self. induction history as [|event history IH]; intros self.
  - exists []. simpl. by rewrite app_nil_r.
  - rewrite fmap_cons. cbn [cli.on_events sum_list sum_list_with]. unfold mbind.
    change (id (printed_calls event)) with (printed_calls event).
    assert (Hstep : exists printed,
              out (fst (on_event event self)) = out self ++ printed /\
              length printed <= printed_calls event /\
              match snd (on_event event self) with
              | inr _ => length printed = printed_calls event
              | inl _ => printed = []
              end).
    { destruct event as [s|e| |]; simpl.
      - eexists. repeat split; simpl; lia.
      - destruct (attrs self) as [a|];
          [|exists []; rewrite app_nil_r; repeat split; simpl; lia].
        destruct (list_setitem (thread_id e) (speed e) (speeds a));
          [exists []; rewrite app_nil_r; repeat split; simpl; lia
          |eexists; repeat split; simpl; lia].
      - eexists. repeat split; simpl; lia.
      - exists []. rewrite app_nil_r. repeat split; simpl; lia. }
    destruct Hstep as (printed1 & Hout1 & Hlen1 & Hres1).
    destruct (on_event event self) as [self1 [exc|[]]]; cbn [fst snd] in *.
    + exists printed1. split; [done|]. split; [lia | done].
    + destruct (IH self1) as (printed2 & Hout2 & Hlen2 & Hres2).
      exists (printed1 ++ printed2). rewrite Hout2, Hout1, <- app_assoc.
      split; [done|]. rewrite length_app. split; [lia|].
      destruct (snd (on_events history self1)); [done | lia].
Qed.

End More_DownloadWatcher_properties.

Lemma DownloadWatcher_progress_raises_witness :
  let e := mkDownloadProgressEvent Z 5 10 1 7%Z in
  let a := mkAttributes Z 3 60 0 [0; 0]%Z in
  let self := mkDownloadWatcher Z [] (Some a) in
  attrs (DownloadWatcher_init Z) = None /\
  attrs self = Some a /\
  (thread_id e < - Z.of_nat (length (speeds a)) \/
   Z.of_nat (length (speeds a)) <= thread_id e)%Z /\
  DownloadWatcher_on_event Z Z.add id 0%Z (fun _ => "") (Progress e) (DownloadWatcher_init Z) =
    (DownloadWatcher_init Z, Err AttributeError) /\
  DownloadWatcher_on_event Z Z.add id 0%Z (fun _ => "") (Progress e) self =
    (self, Err IndexError).
Proof.
  intros e a self.
  assert (Hid : (thread_id e < - Z.of_nat (length (speeds a)) \/
                 Z.of_nat (length (speeds a)) <= thread_id e)%Z) by (right; simpl; lia).
  split; [reflexivity|]. split; [reflexivity|]. split; [exact Hid|]. split.
  - exact (proj1 (DownloadWatcher_progress_raises Z Z.add id 0%Z (fun _ => "")
                    (DownloadWatcher_init Z) e) eq_refl).
  - exact (proj2 (DownloadWatcher_progress_raises Z Z.add id 0%Z (fun _ => "") self e)
             a eq_refl Hid).
Defined.

Lemma DownloadWatcher_negative_thread_id_witness :
  let e := mkDownloadProgressEvent Z (-1) 10 1 7%Z in
  let a := mkAttributes Z 3 60 0 [0; 0]%Z in
  let self := mkDownloadWatcher Z [] (Some a) in
  attrs self = Some a /\
  (- Z.of_nat (length (speeds a)) <= thread_id e < 0)%Z /\
  DownloadWatcher_on_event Z Z.add id 0%Z (fun _ => "") (Progress e) self =
  DownloadWatcher_on_event Z Z.add id 0%Z (fun _ => "")
    (Progress (mkDownloadProgressEvent Z 1 10 1 7%Z)) self.
Proof.
  intros e a self.
  assert (Hid : (- Z.of_nat (length (speeds a)) <= thread_id e < 0)%Z) by (simpl; lia).
  split; [reflexivity|]. split; [exact Hid|].
  exact (DownloadWatcher_negative_thread_id Z Z.add id 0%Z (fun _ => "") self e a
           eq_refl Hid).
Defined.

Lemma DownloadWatcher_restart_witness :
  let format_number := fun n : Z => if decide (n = 4%Z) then "4" else "30" in
  let first := mkDownloadStartEvent 2 30 2 in
  let history :=
    [Start first; Progress (mkDownloadProgressEvent Z 1 20 1 7%Z); Complete] in
  let start := mkDownloadStartEvent 1 30 1 in
  let e := mkDownloadProgressEvent Z 0 30 1 4%Z in
  snd (on_events Z Z.add id 0%Z format_number history (DownloadWatcher_init Z)) = Ok tt /\
  Forall (fun e => (0 <= thread_id e < threads_count start)%Z) ([] ++ [e]) /\
  exists self',
    on_events Z Z.add id 0%Z format_number
      (history ++ Start start :: (Progress <$> [] ++ [e])) (DownloadWatcher_init Z) =
      (self', Ok tt) /\
    last (out self') =
      Some (out_task ".." (Some "download.progress")
              [("speed", KStr "4o/s"); ("count", KInt 1);
               ("total_count", KInt 1); ("size", KStr "30o")]).
Proof.
  intros format_number first history start e.
  assert (Hids : Forall (fun e => (0 <= thread_id e < threads_count start)%Z) ([] ++ [e])).
  { repeat constructor; simpl; lia. }
  split; [reflexivity|]. split; [exact Hids|].
  exact (DownloadWatcher_restart Z Z.add id 0%Z format_number history
           (DownloadWatcher_init Z) _ start [] e eq_refl Hids).
Defined.

(** ** The start watcher *)

Section StartWatcher_properties.

Variable translate : string -> string.

Local Abbreviation on_start_event := (StartWatcher_on_event translate).
Local Abbreviation on_start_events := (StartWatcher_on_events translate).

Implicit Types (event : start_event) (out : list output_call).

Lemma StartWatcher_on_event_appends event out :
  exists printed,
    on_start_event event out = (out ++ printed, Ok tt) /\
    tasks_printed printed = (if known event then 1 else 0) /\
    line_open (out ++ printed) =
      match event with
      | OtherEvent => line_open out
      | LoggerFoundEvent _ => true
      | _ => negb (ends_step event)
      end.
Proof.
  unfold line_open.
  destruct event as [v [|]|v|v [c|]|[c|]|v|v [c|]|]; simpl;
    try (eexists; split; [reflexivity|]; split; [reflexivity|];
         by rewrite last_app).
  exists []. by rewrite app_nil_r.
Qed.

(** X27: the start watcher never raises and only adds to the output:
    after any events, what was printed before is still there, followed by
    exactly one task for each event of a class it handles. *)
Theorem StartWatcher_one_task_per_event (events : list start_event) out :
  exists printed,
    on_start_events events out = (out ++ printed, Ok tt) /\
    tasks_printed printed = length (filter (fun e => known e = true) events).
Proof.
  revert out. induction events as [|event events IH]; intros out.
  - exists []. simpl. by rewrite app_nil_r.
  - destruct (StartWatcher_on_event_appends event out) as (printed1 & Hrun1 & Htasks1 & _).
    destruct (IH (out ++ printed1)) as (printed2 & Hrun2 & Htasks2).
    exists (printed1 ++ printed2). cbn [StartWatcher_on_events]. unfold mbind.
    rewrite Hrun1, Hrun2, <- app_assoc. split; [done|].
    unfold tasks_printed in *. rewrite fmap_app, sum_list_with_app, Htasks1, Htasks2.
    rewrite filter_cons. by destruct (known event).
Qed.

(** X28: after an event that ends a step of the resolution the line of
    the output is closed by [finish], and after one that opens a step it is
    left open on the task; the event of the logger found is the one end of
    a step that leaves its line open. An event of another class leaves the
    output as it is. *)
Theorem StartWatcher_line_after_event event out :
  line_open (fst (on_start_event event out)) =
  match event with
  | OtherEvent => line_open out
  | LoggerFoundEvent _ => true
  | _ => negb (ends_step event)
  end /\
  on_start_event OtherEvent out = (out, Ok tt).
Proof.
  split; [|done].
  destruct (StartWatcher_on_event_appends event out) as (printed & -> & _ & Hline).
  exact Hline.
Qed.

(** A JVM event without a version, or with the empty string for
    version, is printed with the text of the unknown version; with any
    other version it is printed with that version. *)
Lemma StartWatcher_unknown_jvm_version (count : option Z) (c : Ascii.ascii) (s : string) out :
  on_start_event (JvmResolveEvent (Some "") count) out =
    on_start_event (JvmResolveEvent None count) out /\
  version_or_unknown translate None = translate "start.jvm.unknown_version" /\
  on_start_event (JvmResolveEvent (Some (String c s)) None) out =
    (out ++ [out_task ".." (Some "start.jvm.resolving") [("version", KStr (String c s))]],
     Ok tt).
Proof. done. Qed.

End StartWatcher_properties.

(** ** The command wrapper *)

Import cli_cmd.

Section Cmd_properties.

Variable translate : string -> string.

Lemma lines_finished_lines {A} (line : A -> option string * option string * list (string * string))
    (xs : list A) (rest : list cmd_call) :
  lines_finished
    (flat_map (fun x => [cmd_task (line x).1.1 (line x).1.2 (line x).2; cmd_finish]) xs ++ rest)
  = lines_finished rest.
Proof. induction xs as [|x xs IH]; [done|]. simpl. exact IH. Qed.

(** X30: [cmd] ends by [sys.exit]: with [EXIT_OK] and nothing printed
    when the handler returns, with [EXIT_FAILURE] when the handler raises
    an exception of a class that a clause names, after at least one line,
    every task printed being followed at once by [finish]. Any other
    exception, [SystemExit] of the handler included, goes through [cmd]
    with nothing printed. *)
Theorem cmd_ends (handler : handler_end) :
  match handler with
  | returns => cmd translate returns = ([], exits EXIT_OK)
  | raises error =>
      if existsb (fun cls => isinstance cls (classes error)) handled_classes
      then exists printed,
             cmd translate (raises error) = (printed, exits EXIT_FAILURE) /\
             2 <= length printed /\
             lines_finished printed = true
      else cmd translate (raises error) = ([], propagates error)
  end.
Proof.
  destruct handler as [|error]; [done|].
  unfold cmd, handled_classes. cbn [existsb].
  destruct (isinstance "ValueError" (classes error)).
  { cbn [orb]. eexists. split; [reflexivity|]. split; [simpl; lia|].
    cbn [app lines_finished].
    rewrite <- (app_nil_r (flat_map _ _)).
    by rewrite (lines_finished_lines (fun arg => (None, Some "echo", [("echo", arg)]))). }
  destruct (isinstance "KeyboardInterrupt" (classes error)).
  { cbn [orb]. eexists. split; [reflexivity|]. split; [simpl; lia | done]. }
  destruct (isinstance "OSError" (classes error)).
  { cbn [orb]. eexists. split; [reflexivity|]. split; [simpl; lia | done]. }
  destruct (isinstance "VersionNotFoundError" (classes error)).
  { cbn [orb]. eexists. split; [reflexivity|]. split; [simpl; lia | done]. }
  destruct (isinstance "TooMuchParentsError" (classes error)).
  { cbn [orb]. eexists. split; [reflexivity|]. split; [simpl; lia | done]. }
  destruct (isinstance "JarNotFoundError" (classes error)).
  { cbn [orb]. eexists. split; [reflexivity|]. split; [simpl; lia | done]. }
  destruct (isinstance "JvmNotFoundError" (classes error)).
  { cbn [orb]. eexists. split; [reflexivity|]. split; [simpl; lia | done]. }
  destruct (isinstance "DownloadError" (classes error)); [|done].
  cbn [orb]. eexists. split; [reflexivity|]. split; [simpl; lia|].
  cbn [app lines_finished].
  rewrite <- (app_nil_r (flat_map _ _)).
  rewrite (flat_map_ext _
             (fun x => [cmd_task None (Some "download.error")
                          [("name", x.1); ("message", translate ("download.error." +:+ x.2))];
                        cmd_finish])) by (by intros [? ?]).
  by rewrite (lines_finished_lines
                (fun x => (None, Some "download.error",
                           [("name", x.1);
                            ("message", translate ("download.error." +:+ x.2))]))).
Qed.

End Cmd_properties.
